(** * ReconFTW-AI (Gemini): the ingestion / analysis / report pipeline

    A shallow embedding of [reconftw_ai.py]: [read_files], [process_category],
    [save_results] and [analyze_reconftw_results], with the properties of the
    pipeline proved about them.

    Conventions of the model
    - a Python [str] is a [string]; a character is a code point below 256;
    - an exception is a value [exn] (only subclasses of [Exception] are
      modelled: these are what [except Exception] catches);
    - code that can raise lives in the monad [M], which also records the
      operations performed on the outside world (filesystem queries and calls
      of the generation service) as a list of [event]s;
    - the outside world is read through oracles: a [FileSystem] record, a
      client function, and the builtin [str.format];
    - a [dict] keeps its insertion order, as Python's does. *)

From Stdlib Require Import String Ascii List Bool Arith Lia Permutation ZArith.
Import ListNotations.
Local Open Scope list_scope.
Local Open Scope string_scope.

(* ================================================================== *)
(** * Python strings *)

Module PyStr.

(** The line feed of the source's ["\n"]. *)
Definition LF : string := String (ascii_of_nat 10) "".

Definition is_empty (s : string) : bool :=
  match s with "" => true | String _ _ => false end.

(** [s1.startswith(s2)], written with the candidate prefix first. *)
Fixpoint starts_with (p s : string) : bool :=
  match p, s with
  | "", _ => true
  | String _ _, "" => false
  | String a p', String b s' => Ascii.eqb a b && starts_with p' s'
  end.

(** [needle in hay]. *)
Fixpoint contains (needle hay : string) : bool :=
  starts_with needle hay ||
  match hay with
  | "" => false
  | String _ hay' => contains needle hay'
  end.

(** The declarative reading of [in]. *)
Definition Substring (needle hay : string) : Prop :=
  exists pre post, hay = pre ++ needle ++ post.

(** [str.isspace] on one character, for code points below 256:
    TAB, LF, VT, FF, CR, the separators FS GS RS US, SPACE, NEL and NBSP. *)
Definition isspace (c : ascii) : bool :=
  let n := nat_of_ascii c in
  ((9 <=? n)%nat && (n <=? 13)%nat) || ((28 <=? n)%nat && (n <=? 32)%nat)
  || (n =? 133)%nat || (n =? 160)%nat.

Fixpoint lstrip (s : string) : string :=
  match s with
  | "" => ""
  | String c s' => if isspace c then lstrip s' else s
  end.

Fixpoint rstrip (s : string) : string :=
  match s with
  | "" => ""
  | String c s' =>
      let r := rstrip s' in
      if isspace c && is_empty r then "" else String c r
  end.

(** [s.strip()]. *)
Definition strip (s : string) : string := rstrip (lstrip s).

(** [str.upper] on one character; the model covers the ASCII letters, which
    is all the section names of this program contain. *)
Definition upper_char (c : ascii) : ascii :=
  let n := nat_of_ascii c in
  if (97 <=? n)%nat && (n <=? 122)%nat then ascii_of_nat (n - 32) else c.

Fixpoint upper (s : string) : string :=
  match s with
  | "" => ""
  | String c s' => String (upper_char c) (upper s')
  end.

(** [sep.join(parts)]. *)
Fixpoint join (sep : string) (parts : list string) : string :=
  match parts with
  | [] => ""
  | [x] => x
  | x :: rest => x ++ sep ++ join sep rest
  end.

(** [s * n]. *)
Fixpoint repeat_str (s : string) (n : nat) : string :=
  match n with
  | 0 => ""
  | S n' => s ++ repeat_str s n'
  end.

(** Concatenation of a list of strings, as successive writes produce. *)
Fixpoint concat_all (parts : list string) : string :=
  match parts with
  | [] => ""
  | x :: rest => x ++ concat_all rest
  end.

End PyStr.
Import PyStr.

(* ================================================================== *)
(** * Exceptions, effects and the world *)

(** A raised exception: its class and the text [str(e)] renders. *)
Record exn : Type := mkExn { exn_class : string; exn_text : string }.

Inductive result (A : Type) : Type :=
| Ok (a : A)
| Raise (e : exn).
Arguments Ok {A} a.
Arguments Raise {A} e.

(** What the program does to the outside world, in the order it does it. *)
Inductive event : Type :=
| IsDir (path : string)
| Glob (pattern : string)
| IsFile (path : string)
| OpenRead (path : string)
| GenerateContent (model contents : string)
| MakeDirs (path : string)
| WriteFile (path body : string).

(** A computation returns or raises, and leaves a trace of events. *)
Definition M (A : Type) : Type := (result A * list event)%type.

Definition ret {A} (a : A) : M A := (Ok a, []).
Definition raise {A} (e : exn) : M A := (Raise e, []).
Definition emit (ev : event) : M unit := (Ok tt, [ev]).
Definition lift {A} (r : result A) : M A := (r, []).

Definition bind {A B} (m : M A) (k : A -> M B) : M B :=
  match m with
  | (Ok a, t) => let (r, t') := k a in (r, (t ++ t')%list)
  | (Raise e, t) => (Raise e, t)
  end.

(** [try: m  except Exception as e: h e]. *)
Definition try_except {A} (m : M A) (h : exn -> M A) : M A :=
  match m with
  | (Ok a, t) => (Ok a, t)
  | (Raise e, t) => let (r, t') := h e in (r, (t ++ t')%list)
  end.

Notation "x <- m ;; k" := (bind m (fun x => k))
  (at level 61, m at next level, right associativity).
Notation "m ;;; k" := (bind m (fun _ => k))
  (at level 61, right associativity).

(** [for x in xs: s = body s x]. *)
Fixpoint for_each {A S : Type} (xs : list A) (s : S) (body : S -> A -> M S)
  : M S :=
  match xs with
  | [] => ret s
  | x :: rest => s' <- body s x ;; for_each rest s' body
  end.

(** The filesystem, as the calls of [read_files] see it.  [fs_glob] is
    [glob.glob(pattern, recursive=True)] and lists the paths in the order
    the runtime's directory walk yields them; [fs_read] is
    [open(path, "r", encoding="utf-8")] followed by [read()];
    [fs_relpath] is [os.path.relpath], which depends on the working
    directory. *)
Record FileSystem : Type := mkFS {
  fs_isdir : string -> bool;
  fs_glob : string -> list string;
  fs_isfile : string -> bool;
  fs_read : string -> result string;
  fs_relpath : string -> string -> string
}.

(** The generation service behind [client.models.generate_content(...)]
    and the [.text] of its response: a text, or an exception. *)
Definition Client : Type := string -> string -> result string.

(** [os.path.join] of two components, POSIX flavour. *)
Definition path_join (a b : string) : string :=
  if starts_with "/" b then b
  else if is_empty a || String.eqb (substring (String.length a - 1) 1 a) "/"
       then a ++ b
       else a ++ "/" ++ b.

(* ================================================================== *)
(** * Dictionaries and JSON values *)

(** A Python [dict] with string keys: the bindings in insertion order. *)
Definition dict (V : Type) : Type := list (string * V).

Fixpoint dict_get {V} (d : dict V) (k : string) : option V :=
  match d with
  | [] => None
  | (k', v) :: d' => if String.eqb k k' then Some v else dict_get d' k
  end.

(** [d[k] = v]: an existing key keeps its place, a new one goes last. *)
Fixpoint dict_set {V} (d : dict V) (k : string) (v : V) : dict V :=
  match d with
  | [] => [(k, v)]
  | (k', v') :: d' =>
      if String.eqb k k' then (k, v) :: d' else (k', v') :: dict_set d' k v
  end.

Definition keys {V} (d : dict V) : list string := map fst d.

(** [d[k]], which raises [KeyError] on a missing key. *)
Definition subscript (d : dict string) (k : string) : M string :=
  match dict_get d k with
  | Some v => ret v
  | None => raise (mkExn "KeyError" ("'" ++ k ++ "'"))
  end.

(** What [json.load] can return. *)
#[warnings="-register-all"]
Inductive json : Type :=
| JNull
| JBool (b : bool)
| JInt (n : Z)
| JFloat (literal : string)
| JString (s : string)
| JArray (items : list json)
| JObject (members : dict json).

Definition type_name (v : json) : string :=
  match v with
  | JNull => "NoneType"
  | JBool _ => "bool"
  | JInt _ => "int"
  | JFloat _ => "float"
  | JString _ => "str"
  | JArray _ => "list"
  | JObject _ => "dict"
  end.

Definition no_attribute (v : json) (attr : string) : exn :=
  mkExn "AttributeError"
        ("'" ++ type_name v ++ "' object has no attribute '" ++ attr ++ "'").

(** [v.get(key, default)]: only a dict has the method. *)
Definition json_get (v : json) (key : string) (default : json) : M json :=
  match v with
  | JObject members =>
      ret (match dict_get members key with Some x => x | None => default end)
  | _ => raise (no_attribute v "get")
  end.

(* ================================================================== *)
(** * The program *)

Definition CATEGORIES : list string := ["osint"; "subdomains"; "hosts"; "webs"].

(** The built-in template of [process_category], used when the catalog has
    none for the (report type, category) pair. *)
Definition DEFAULT_TEMPLATE : string :=
  "Analyze this reconnaissance data and highlight high-risk findings:"
  ++ LF ++ "{data}".

Section Program.

(** The ambient world: the filesystem, and the builtin
    [template.format(data=d)], which returns the composed text or raises. *)
Variable fs : FileSystem.
Variable str_format : string -> string -> result string.

Definition isdir (path : string) : M bool :=
  emit (IsDir path) ;;; ret (fs_isdir fs path).
Definition glob (pattern : string) : M (list string) :=
  emit (Glob pattern) ;;; ret (fs_glob fs pattern).
Definition isfile (path : string) : M bool :=
  emit (IsFile path) ;;; ret (fs_isfile fs path).
Definition open_read (path : string) : M string :=
  emit (OpenRead path) ;;; lift (fs_read fs path).

(** One turn of the loop of [read_files]: the accumulator after [file_path]. *)
Definition read_one (results_dir combined_data file_path : string) : M string :=
  f <- isfile file_path ;;
  if f then
    let relative_path := fs_relpath fs file_path results_dir in
    try_except
      (content <- open_read file_path ;;
       ret (combined_data ++ "--- " ++ relative_path ++ " ---" ++ LF
              ++ strip content ++ LF))
      (fun e =>
         ret (combined_data ++ "[Error] Failed to read " ++ relative_path
                ++ ": " ++ exn_text e ++ LF))
  else ret combined_data.

Definition read_files (category results_dir : string) : M string :=
  let category_dir := path_join results_dir category in
  d <- isdir category_dir ;;
  if negb d then
    ret ("[Error] Directory " ++ category_dir ++ " does not exist.")
  else
    file_paths <- glob (path_join category_dir "**/*") ;;
    combined_data <- for_each file_paths "" (read_one results_dir) ;;
    if is_empty combined_data then
      ret ("[Info] No files found in " ++ category_dir ++ ".")
    else ret (strip combined_data).

(** Line 75: the template of the (report type, category) pair. *)
Definition prompt_template (base_prompts : json) (report_type category : string)
  : M json :=
  variant <- json_get base_prompts report_type (JObject []) ;;
  json_get variant category (JString DEFAULT_TEMPLATE).

(** Line 76: [prompt_template.format(data=data)]; only a [str] has the
    method. *)
Definition format_template (template : json) (data : string) : M string :=
  match template with
  | JString t => lift (str_format t data)
  | _ => raise (no_attribute template "format")
  end.

(** Lines 75 and 76 together: the composed [prompt]. *)
Definition prompt (base_prompts : json) (report_type category data : string)
  : M string :=
  template <- prompt_template base_prompts report_type category ;;
  format_template template data.

Definition generate_content (client : Client) (model contents : string)
  : M string :=
  emit (GenerateContent model contents) ;;; lift (client model contents).

Definition process_category (client : Client)
  (category data model_name report_type : string) (base_prompts : json)
  : M string :=
  if is_empty data || contains "[Error]" data then
    ret ("[Error] No valid data available for " ++ category ++ ".")
  else
    contents <- prompt base_prompts report_type category data ;;
    try_except
      (generate_content client model_name contents)
      (fun e =>
         ret ("[Error] Failed to process " ++ category ++ " with Gemini: "
                ++ exn_text e)).

(** A [ThreadPoolExecutor] with one task per category, consumed through
    [as_completed].  [done] is the order in which the tasks complete, which
    the scheduler decides.  Every submitted task runs to its end, so the
    events of all of them are recorded; [future.result()] stores a result
    under the task's category, or re-raises the task's exception, which
    leaves the loop. *)
Fixpoint gather (task : string -> M string) (done : list string)
  (d : dict string) : M (dict string) :=
  match done with
  | [] => ret d
  | cat :: rest =>
      match task cat with
      | (Ok v, t) =>
          let (r, t') := gather task rest (dict_set d cat v) in
          (r, (t ++ t')%list)
      | (Raise e, t) =>
          (Raise e, (t ++ flat_map (fun c => snd (task c)) rest)%list)
      end
  end.

(** Step 1: [raw_data_per_category]. *)
Definition raw_data_per_category (done : list string) (results_dir : string)
  : M (dict string) :=
  gather (fun cat => read_files cat results_dir) done [].

(** Step 3, line 130: the text handed to the overview call. *)
Definition all_data (raw : dict string) : string :=
  join (LF ++ LF) (map (fun kv => upper (fst kv) ++ ":" ++ LF ++ snd kv) raw).

(** [done1] and [done2] are the completion orders of the two pools. *)
Definition analyze_reconftw_results (client : Client) (done1 done2 : list string)
  (results_dir model_name report_type : string) (base_prompts : json)
  : M (dict string) :=
  raw <- raw_data_per_category done1 results_dir ;;
  results <-
    gather (fun cat =>
              data <- subscript raw cat ;;
              process_category client cat data model_name report_type
                base_prompts)
           done2 [] ;;
  overview <- process_category client "overview" (all_data raw) model_name
                report_type base_prompts ;;
  ret (dict_set results "overview" overview).

End Program.

(* ================================================================== *)
(** * The report writer *)

(** What [datetime.now()] returns. *)
Record datetime : Type := mkDatetime {
  year : nat; month : nat; day : nat;
  hour : nat; minute : nat; second : nat
}.

Definition digit (n : nat) : string := String (ascii_of_nat (48 + n mod 10)) "".
Definition pad2 (n : nat) : string := digit (n / 10) ++ digit n.
Definition pad4 (n : nat) : string := digit (n / 1000) ++ digit (n / 100) ++ pad2 n.

(** [now.strftime("%Y%m%d_%H%M%S")], for the years 1000 to 9999. *)
Definition strftime (now : datetime) : string :=
  pad4 (year now) ++ pad2 (month now) ++ pad2 (day now) ++ "_"
  ++ pad2 (hour now) ++ pad2 (minute now) ++ pad2 (second now).

Definition md_header (model_name report_type timestamp : string) : string :=
  "# ReconFTW-AI Analysis (Gemini)" ++ LF ++ LF
  ++ "- **Model Used**: `" ++ model_name ++ "`" ++ LF
  ++ "- **Report Type**: `" ++ report_type ++ "`" ++ LF
  ++ "- **Date**: `" ++ timestamp ++ "`" ++ LF ++ LF.

Definition md_section (kv : string * string) : string :=
  "## " ++ upper (fst kv) ++ LF ++ LF ++ snd kv ++ LF ++ LF.

Definition txt_header (model_name report_type timestamp : string) : string :=
  "ReconFTW-AI Analysis" ++ LF ++ "Model: " ++ model_name ++ LF
  ++ "Report Type: " ++ report_type ++ LF ++ "Date: " ++ timestamp ++ LF
  ++ repeat_str "=" 60 ++ LF ++ LF.

Definition txt_section (kv : string * string) : string :=
  "=== " ++ upper (fst kv) ++ " ===" ++ LF ++ snd kv ++ LF ++ LF.

(** Everything written to the file, in the order of the [f.write] calls. *)
Definition report_body (results : dict string)
  (model_name output_format report_type timestamp : string) : string :=
  if String.eqb output_format "md" then
    md_header model_name report_type timestamp
    ++ concat_all (map md_section results)
  else
    txt_header model_name report_type timestamp
    ++ concat_all (map txt_section results).

(** [save_results], on a writable output directory; [now] is the clock. *)
Definition save_results (now : datetime) (results : dict string)
  (output_dir model_name output_format report_type : string) : M unit :=
  emit (MakeDirs output_dir) ;;;
  let timestamp := strftime now in
  let extension := if String.eqb output_format "md" then "md" else "txt" in
  let output_file :=
    path_join output_dir
      ("reconftw_analysis_" ++ report_type ++ "_" ++ timestamp ++ "."
         ++ extension) in
  emit (WriteFile output_file
          (report_body results model_name output_format report_type timestamp)).

(* ================================================================== *)
(** * A model of [str.format] for plain templates

    [format_plain t d] is [t.format(data=d)] for the templates whose
    replacement fields hold a plain name (letters, digits, underscore) or
    nothing: literal text, the escapes of the two braces, the field of
    [data], an unknown name ([KeyError]), an empty field ([IndexError]) and
    unbalanced braces ([ValueError]).  Fields with a conversion, a format
    specification, an attribute or an index, and numbered fields, are
    outside it and answer [NotModelled].  The pipeline above takes
    [str.format] as a parameter, so its theorems hold whatever the builtin
    does on those; [format_plain] serves the concrete runs. *)

Definition is_name_char (c : ascii) : bool :=
  let n := nat_of_ascii c in
  ((48 <=? n)%nat && (n <=? 57)%nat) || ((65 <=? n)%nat && (n <=? 90)%nat)
  || ((97 <=? n)%nat && (n <=? 122)%nat) || (n =? 95)%nat.

Definition is_digit_char (c : ascii) : bool :=
  let n := nat_of_ascii c in (48 <=? n)%nat && (n <=? 57)%nat.

Fixpoint all_chars (p : ascii -> bool) (s : string) : bool :=
  match s with
  | "" => true
  | String c s' => p c && all_chars p s'
  end.

Definition lookup_field (name data : string) : result string :=
  if String.eqb name "data" then Ok data
  else if is_empty name then
    Raise (mkExn "IndexError"
             "Replacement index 0 out of range for positional args tuple")
  else if all_chars is_name_char name && negb (all_chars is_digit_char name)
  then Raise (mkExn "KeyError" ("'" ++ name ++ "'"))
  else Raise (mkExn "NotModelled" name).

Definition prepend (s : string) (r : result string) : result string :=
  match r with
  | Ok rest => Ok (s ++ rest)
  | Raise e => Raise e
  end.

(** [field] is [None] in literal text and holds the characters read so
    far inside a replacement field. *)
Fixpoint format_go (template : string) (field : option string) (data : string)
  : result string :=
  match template, field with
  | "", None => Ok ""
  | "", Some _ =>
      Raise (mkExn "ValueError" "expected '}' before end of string")
  | String c t, None =>
      if Ascii.eqb c "{" then
        match t with
        | "" =>
            Raise (mkExn "ValueError"
                     "Single '{' encountered in format string")
        | String c' t' =>
            if Ascii.eqb c' "{" then prepend "{" (format_go t' None data)
            else format_go t (Some "") data
        end
      else if Ascii.eqb c "}" then
        match t with
        | String "}" t' => prepend "}" (format_go t' None data)
        | _ =>
            Raise (mkExn "ValueError"
                     "Single '}' encountered in format string")
        end
      else prepend (String c "") (format_go t None data)
  | String c t, Some name =>
      if Ascii.eqb c "}" then
        match lookup_field name data with
        | Ok v => prepend v (format_go t None data)
        | Raise e => Raise e
        end
      else format_go t (Some (name ++ String c "")) data
  end.

Definition format_plain (template data : string) : result string :=
  format_go template None data.

(* ================================================================== *)
(** * Vocabulary of the statements *)

(** What one enumerated path adds to the accumulator of [read_files]:
    nothing when it is not a regular file, the file's block when it reads,
    an error block when it does not. *)
Definition block (fs : FileSystem) (results_dir file_path : string) : string :=
  if fs_isfile fs file_path then
    let relative_path := fs_relpath fs file_path results_dir in
    match fs_read fs file_path with
    | Ok content =>
        "--- " ++ relative_path ++ " ---" ++ LF ++ strip content ++ LF
    | Raise e =>
        "[Error] Failed to read " ++ relative_path ++ ": " ++ exn_text e ++ LF
    end
  else "".

(** A text that is empty or opens with a character [strip] keeps. *)
Definition clean_head (s : string) : Prop :=
  match s with
  | "" => True
  | String c _ => isspace c = false
  end.

(** The events of one turn of the loop. *)
Definition block_events (fs : FileSystem) (file_path : string) : list event :=
  if fs_isfile fs file_path then [IsFile file_path; OpenRead file_path]
  else [IsFile file_path].

(** The paths [read_files] enumerates for a category. *)
Definition listing (fs : FileSystem) (category results_dir : string)
  : list string :=
  fs_glob fs (path_join (path_join results_dir category) "**/*").

(** The raw data of a category: the text [read_files] returns. *)
Definition ingested (fs : FileSystem) (category results_dir : string) : string :=
  let category_dir := path_join results_dir category in
  if fs_isdir fs category_dir then
    let combined_data :=
      concat_all (map (block fs results_dir) (listing fs category results_dir)) in
    if is_empty combined_data then
      "[Info] No files found in " ++ category_dir ++ "."
    else strip combined_data
  else "[Error] Directory " ++ category_dir ++ " does not exist.".

(** Two observations of a results tree that hold the same files with the
    same contents: they agree on every query, and enumerate the same
    paths, possibly in another order. *)
Definition same_contents (fs1 fs2 : FileSystem) : Prop :=
  (forall p, fs_isdir fs1 p = fs_isdir fs2 p) /\
  (forall p, fs_isfile fs1 p = fs_isfile fs2 p) /\
  (forall p, fs_read fs1 p = fs_read fs2 p) /\
  (forall p start, fs_relpath fs1 p start = fs_relpath fs2 p start) /\
  (forall pattern, Permutation (fs_glob fs1 pattern) (fs_glob fs2 pattern)).

(** The report with its sections put in the declared order, [overview]
    last. *)
Definition declared_order (results : dict string) : dict string :=
  flat_map (fun c => match dict_get results c with
                     | Some v => [(c, v)]
                     | None => []
                     end)
           (CATEGORIES ++ ["overview"])%list.

(** The text of a section of the report. *)
Definition section_text (results : dict string) (name : string) : string :=
  match dict_get results name with
  | Some v => v
  | None => ""
  end.

(** How many characters of a text satisfy a test. *)
Fixpoint count_chars (p : ascii -> bool) (s : string) : nat :=
  match s with
  | "" => 0
  | String c s' => (if p c then 1 else 0) + count_chars p s'
  end.

(* ================================================================== *)
(** * Concrete worlds *)

Module World.

Definition RESULTS_DIR : string := "./reconftw_output".
Definition MODEL : string := "gemini-2.0-flash".

(** [os.path.relpath] for a path below [start]. *)
Definition relpath_under (p start : string) : string :=
  if starts_with (start ++ "/") p
  then substring (String.length start + 1) (String.length p) p
  else p.

(** A results tree with a single category directory [dir]; [files] are its
    regular files, each with what reading it gives, in the order the
    directory walk yields them. *)
Definition one_category (dir : string) (files : list (string * result string))
  : FileSystem :=
  {| fs_isdir := fun p => String.eqb p dir;
     fs_glob := fun pattern =>
       if String.eqb pattern (path_join dir "**/*") then map fst files else [];
     fs_isfile := fun p => existsb (String.eqb p) (map fst files);
     fs_read := fun p =>
       match dict_get files p with
       | Some r => r
       | None =>
           Raise (mkExn "FileNotFoundError"
                    ("[Errno 2] No such file or directory: '" ++ p ++ "'"))
       end;
     fs_relpath := relpath_under |}.

(** Only [subdomains/a.txt] exists, holding one host name. *)
Definition fs_sub : FileSystem :=
  one_category "./reconftw_output/subdomains"
    [("./reconftw_output/subdomains/a.txt", Ok ("sub.example.com" ++ LF))].

(** The [osint] directory exists and is empty. *)
Definition fs_empty : FileSystem := one_category "./reconftw_output/osint" [].

(** [osint] holds [a.txt] and [b.txt]; the walk yields them in that order. *)
Definition fs_ab : FileSystem :=
  one_category "./reconftw_output/osint"
    [("./reconftw_output/osint/a.txt", Ok "alpha");
     ("./reconftw_output/osint/b.txt", Ok "beta")].

(** The same two files, yielded in the other order. *)
Definition fs_ba : FileSystem :=
  one_category "./reconftw_output/osint"
    [("./reconftw_output/osint/b.txt", Ok "beta");
     ("./reconftw_output/osint/a.txt", Ok "alpha")].

(** [fs_ab] seen from a process that also finds a stray file elsewhere. *)
Definition fs_ab_more : FileSystem :=
  {| fs_isdir := fs_isdir fs_ab;
     fs_glob := fs_glob fs_ab;
     fs_isfile := fun p => String.eqb p "./notes.txt" || fs_isfile fs_ab p;
     fs_read := fun p =>
       if String.eqb p "./notes.txt" then Ok "notes" else fs_read fs_ab p;
     fs_relpath := fs_relpath fs_ab |}.

(** [osint] holds a binary file that does not decode and a text file. *)
Definition fs_mixed : FileSystem :=
  one_category "./reconftw_output/osint"
    [("./reconftw_output/osint/dump.bin",
      Raise (mkExn "UnicodeDecodeError"
               "'utf-8' codec can't decode byte 0xff in position 0: invalid start byte"));
     ("./reconftw_output/osint/emails.txt", Ok ("admin@example.com" ++ LF))].

(** A service that answers every prompt. *)
Definition echo : Client := fun _ contents => Ok ("Findings for: " ++ contents).

(** A service that is out of quota. *)
Definition exhausted : Client :=
  fun _ _ => Raise (mkExn "ClientError" "429 RESOURCE_EXHAUSTED").

Definition no_catalog : json := JObject [].

(** A catalog whose [osint] template names a field the call does not
    supply. *)
Definition catalog_target : json :=
  JObject [("executive", JObject [("osint", JString "Targets: {target}")])].

Definition NOW : datetime := mkDatetime 2026 11 4 22 16 0.

(** The report of a run over [fs_sub] in which the analysis of
    [subdomains] completed first. *)
Definition report_sub : dict string :=
  [("subdomains",
    "Findings for: "
    ++ "Analyze this reconnaissance data and highlight high-risk findings:"
    ++ LF ++ "--- subdomains/a.txt ---" ++ LF ++ "sub.example.com");
   ("osint", "[Error] No valid data available for osint.");
   ("hosts", "[Error] No valid data available for hosts.");
   ("webs", "[Error] No valid data available for webs.");
   ("overview", "[Error] No valid data available for overview.")].

End World.

(* ================================================================== *)
(** * Start-up and [main] *)

Definition DEFAULT_RECONFTW_RESULTS_DIR : string := "./reconftw_output".
Definition DEFAULT_OUTPUT_DIR : string := "./reconftw_ai_output".
Definition DEFAULT_MODEL_NAME : string := "gemini-2.0-flash".
Definition DEFAULT_OUTPUT_FORMAT : string := "txt".
Definition DEFAULT_REPORT_TYPE : string := "executive".
Definition DEFAULT_PROMPTS_FILE : string := "prompts.json".

Definition REPORT_TYPES : list string := ["executive"; "brief"; "bughunter"].
Definition OUTPUT_FORMATS : list string := ["txt"; "md"].

(** How a run of the program ends: it returns, it leaves through
    [sys.exit(status)], or an exception nobody catches ends it. *)
Inductive outcome (A : Type) : Type :=
| Returned (a : A)
| Exited (status : nat)
| Uncaught (e : exn).
Arguments Returned {A} a.
Arguments Exited {A} status.
Arguments Uncaught {A} e.

(** What the process does, start-up included: a line printed, the prompts
    file opened and parsed, the environment read, the client built, and
    the events of the pipeline. *)
Inductive action : Type :=
| Print (line : string)
| LoadJson (path : string)
| GetEnv (name : string)
| Connect (api_key : string)
| Effect (ev : event).

Definition P (A : Type) : Type := (outcome A * list action)%type.

Definition p_ret {A} (a : A) : P A := (Returned a, []).
Definition act (a : action) : P unit := (Returned tt, [a]).
Definition print (line : string) : P unit := act (Print line).
Definition sys_exit {A} (status : nat) : P A := (Exited status, []).
Definition uncaught {A} (e : exn) : P A := (Uncaught e, []).

Definition p_bind {A B} (m : P A) (k : A -> P B) : P B :=
  match m with
  | (Returned a, t) => let (r, t') := k a in (r, (t ++ t')%list)
  | (Exited s, t) => (Exited s, t)
  | (Uncaught e, t) => (Uncaught e, t)
  end.

Notation "x <== m ;; k" := (p_bind m (fun x => k))
  (at level 61, m at next level, right associativity).
Notation "m >>> k" := (p_bind m (fun _ => k))
  (at level 61, right associativity).

(** A pipeline computation run inside the process: an exception it raises
    is caught by nobody. *)
Definition of_M {A} (m : M A) : P A :=
  (match fst m with
   | Ok a => Returned a
   | Raise e => Uncaught e
   end,
   map Effect (snd m)).

(** The machine the program runs on.  [host_load_json] is [open(path)]
    followed by [json.load]; [host_getenv] is the environment after
    [load_dotenv()]; [host_connect] is the service reached with a key;
    [host_now] is the clock when the report is saved; [host_done1] and
    [host_done2] are the completion orders of the two pools. *)
Record Host : Type := mkHost {
  host_load_json : string -> result json;
  host_getenv : string -> option string;
  host_connect : string -> Client;
  host_fs : FileSystem;
  host_format : string -> string -> result string;
  host_now : datetime;
  host_done1 : list string;
  host_done2 : list string
}.

Definition load_prompts (h : Host) (prompts_file : string) : P json :=
  act (LoadJson prompts_file) >>>
  match host_load_json h prompts_file with
  | Ok catalog => p_ret catalog
  | Raise e =>
      if String.eqb (exn_class e) "FileNotFoundError" then
        print ("[ERROR] Prompts file '" ++ prompts_file ++ "' not found.") >>>
        sys_exit 1
      else if String.eqb (exn_class e) "JSONDecodeError" then
        print ("[ERROR] Invalid JSON in prompts file: " ++ exn_text e) >>>
        sys_exit 1
      else uncaught e
  end.

Definition get_gemini_client (h : Host) : P Client :=
  act (GetEnv "GOOGLE_API_KEY") >>>
  match host_getenv h "GOOGLE_API_KEY" with
  | Some api_key =>
      if is_empty api_key then
        print "[ERROR] GOOGLE_API_KEY not found in environment variables." >>>
        sys_exit 1
      else act (Connect api_key) >>> p_ret (host_connect h api_key)
  | None =>
      print "[ERROR] GOOGLE_API_KEY not found in environment variables." >>>
      sys_exit 1
  end.

(** What [parser.parse_args()] returns. *)
Record Args : Type := mkArgs {
  results_dir : string;
  output_dir : string;
  model : string;
  output_format : string;
  report_type : string;
  prompts_file : string
}.

(** The arguments of a run without flags. *)
Definition DEFAULT_ARGS : Args :=
  mkArgs DEFAULT_RECONFTW_RESULTS_DIR DEFAULT_OUTPUT_DIR DEFAULT_MODEL_NAME
         DEFAULT_OUTPUT_FORMAT DEFAULT_REPORT_TYPE DEFAULT_PROMPTS_FILE.

(** The [output_file] of [save_results]. *)
Definition output_file (now : datetime)
  (output_dir output_format report_type : string) : string :=
  path_join output_dir
    ("reconftw_analysis_" ++ report_type ++ "_" ++ strftime now ++ "."
       ++ (if String.eqb output_format "md" then "md" else "txt")).

(** [main], from the point where [parse_args] has returned.  The last
    line printed is the one [save_results] prints after closing the
    file. *)
Definition main (h : Host) (args : Args) : P unit :=
  base_prompts <== load_prompts h (prompts_file args) ;;
  client <== get_gemini_client h ;;
  print ("[*] Analyzing ReconFTW results with " ++ model args ++ "...") >>>
  results <==
    of_M (analyze_reconftw_results (host_fs h) (host_format h) client
            (host_done1 h) (host_done2 h) (results_dir args) (model args)
            (report_type args) base_prompts) ;;
  of_M (save_results (host_now h) results (output_dir args) (model args)
          (output_format args) (report_type args)) >>>
  print ("[*] Results saved to '"
         ++ output_file (host_now h) (output_dir args) (output_format args)
              (report_type args)
         ++ "'").

(* ================================================================== *)
(** * Reading traces *)

(** The paths a trace opens, in order. *)
Fixpoint opened_paths (t : list event) : list string :=
  match t with
  | [] => []
  | OpenRead p :: t' => p :: opened_paths t'
  | _ :: t' => opened_paths t'
  end.

(** How many times a trace calls the generation service. *)
Fixpoint service_calls (t : list event) : nat :=
  match t with
  | [] => 0
  | GenerateContent _ _ :: t' => S (service_calls t')
  | _ :: t' => service_calls t'
  end.

(** The files a trace writes, in order. *)
Fixpoint written_files (t : list event) : list (string * string) :=
  match t with
  | [] => []
  | WriteFile p body :: t' => (p, body) :: written_files t'
  | _ :: t' => written_files t'
  end.

(** The pipeline events among the actions of a process. *)
Fixpoint effects (acts : list action) : list event :=
  match acts with
  | [] => []
  | Effect ev :: acts' => ev :: effects acts'
  | _ :: acts' => effects acts'
  end.

(** A date and time as [datetime] holds them. *)
Definition valid_datetime (now : datetime) : Prop :=
  1000 <= year now < 10 * 1000 /\ 1 <= month now <= 12 /\ 1 <= day now <= 31 /\
  hour now < 24 /\ minute now < 60 /\ second now < 60.

(** A text with nothing for [strip] to remove. *)
Definition trimmed (s : string) : Prop := strip s = s.

(** The task step 2 submits for a category: the analysis of its entry in
    the raw data. *)
Definition analysis_of (str_format : string -> string -> result string)
  (client : Client) (model_name report_type : string) (base_prompts : json)
  (raw : dict string) (cat : string) : M string :=
  data <- subscript raw cat ;;
  process_category str_format client cat data model_name report_type
    base_prompts.

(** The raw data step 1 collects when the reads complete in the order
    [done1]. *)
Definition raw_data_of (fs : FileSystem) (results_dir : string)
  (done1 : list string) : dict string :=
  map (fun cat => (cat, ingested fs cat results_dir)) done1.

(** The part of [main] that follows the start-up: the banner, the run and
    the report. *)
Definition run_pipeline (h : Host) (args : Args) (base_prompts : json)
  (client : Client) : P unit :=
  print ("[*] Analyzing ReconFTW results with " ++ model args ++ "...") >>>
  results <==
    of_M (analyze_reconftw_results (host_fs h) (host_format h) client
            (host_done1 h) (host_done2 h) (results_dir args) (model args)
            (report_type args) base_prompts) ;;
  of_M (save_results (host_now h) results (output_dir args) (model args)
          (output_format args) (report_type args)) >>>
  print ("[*] Results saved to '"
         ++ output_file (host_now h) (output_dir args) (output_format args)
              (report_type args)
         ++ "'").

(** The start-up cannot complete: the prompts file is missing or is not
    JSON, or the environment holds no key, or an empty one. *)
Definition startup_fails (h : Host) (args : Args) : Prop :=
  (exists e,
     host_load_json h (prompts_file args) = Raise e /\
     (exn_class e = "FileNotFoundError" \/ exn_class e = "JSONDecodeError")) \/
  (exists catalog,
     host_load_json h (prompts_file args) = Ok catalog /\
     (host_getenv h "GOOGLE_API_KEY" = None \/
      host_getenv h "GOOGLE_API_KEY" = Some "")).

(** A host with a prompts file, a key in the environment and a service
    behind it, over a given results tree. *)
Module Hosts.

Definition ready (fs : FileSystem) (catalog : json) (client : Client) : Host :=
  {| host_load_json := fun path =>
       if String.eqb path "prompts.json" then Ok catalog
       else Raise (mkExn "FileNotFoundError"
                     ("[Errno 2] No such file or directory: '" ++ path ++ "'"));
     host_getenv := fun name =>
       if String.eqb name "GOOGLE_API_KEY" then Some "AIza-example" else None;
     host_connect := fun _ => client;
     host_fs := fs;
     host_format := format_plain;
     host_now := World.NOW;
     host_done1 := ["subdomains"; "osint"; "hosts"; "webs"];
     host_done2 := ["osint"; "subdomains"; "webs"; "hosts"] |}.



End Hosts.

(* ================================================================== *)
(** * Facts about strings *)

Section StringFacts.

Lemma app_assoc_s (a b c : string) : (a ++ b) ++ c = a ++ b ++ c.
Proof. induction a as [|x a IH]; simpl; [reflexivity | now rewrite IH]. Qed.

Lemma app_empty_r (a : string) : a ++ "" = a.
Proof. induction a as [|x a IH]; simpl; [reflexivity | now rewrite IH]. Qed.

Lemma length_app (a b : string) :
  String.length (a ++ b) = String.length a + String.length b.
Proof. induction a as [|x a IH]; simpl; [reflexivity | now rewrite IH]. Qed.

Lemma app_inv_head (a b c : string) : a ++ b = a ++ c -> b = c.
Proof.
  induction a as [|x a IH]; simpl; intros H; [exact H |].
  injection H as H. now apply IH.
Qed.


Lemma is_empty_app (a b : string) :
  is_empty (a ++ b) = is_empty a && is_empty b.
Proof. destruct a; reflexivity. Qed.

Lemma starts_with_app (p s : string) : starts_with p (p ++ s) = true.
Proof.
  induction p as [|x p IH]; simpl; [reflexivity |].
  now rewrite Ascii.eqb_refl, IH.
Qed.

Lemma starts_with_inv (p s : string) :
  starts_with p s = true -> exists rest, s = p ++ rest.
Proof.
  revert s; induction p as [|x p IH]; intros s H.
  - now exists s.
  - destruct s as [|y s]; simpl in H; [discriminate |].
    apply andb_true_iff in H as [Hxy Hps].
    apply Ascii.eqb_eq in Hxy; subst y.
    destruct (IH s Hps) as [rest ->]. now exists rest.
Qed.

Lemma contains_here (needle post : string) :
  contains needle (needle ++ post) = true.
Proof.
  destruct (needle ++ post) eqn:E; simpl;
    rewrite <- E, starts_with_app; reflexivity.
Qed.

Lemma contains_skip (needle pre hay : string) :
  contains needle hay = true -> contains needle (pre ++ hay) = true.
Proof.
  intros H; induction pre as [|x pre IH]; simpl; [exact H |].
  rewrite IH. apply orb_true_r.
Qed.

(** The test [needle in hay] decides [Substring]. *)
Lemma contains_spec (needle hay : string) :
  contains needle hay = true <-> Substring needle hay.
Proof.
  split.
  - induction hay as [|y hay IH]; simpl; intros H.
    + rewrite orb_false_r in H.
      destruct (starts_with_inv _ _ H) as [rest E].
      exists "", rest. exact E.
    + apply orb_true_iff in H as [H | H].
      * destruct (starts_with_inv _ _ H) as [rest E].
        exists "", rest. exact E.
      * destruct (IH H) as (pre & post & E).
        exists (String y pre), post. simpl. now rewrite E.
  - intros (pre & post & ->). apply contains_skip, contains_here.
Qed.

Lemma Substring_refl (s : string) : Substring s s.
Proof. exists "", "". simpl. now rewrite app_empty_r. Qed.

Lemma Substring_app_l (n a b : string) : Substring n a -> Substring n (a ++ b).
Proof.
  intros (pre & post & ->). exists pre, (post ++ b).
  now rewrite !app_assoc_s.
Qed.

Lemma Substring_app_r (n a b : string) : Substring n b -> Substring n (a ++ b).
Proof.
  intros (pre & post & ->). exists (a ++ pre), post.
  now rewrite !app_assoc_s.
Qed.

Lemma Substring_trans (a b c : string) :
  Substring a b -> Substring b c -> Substring a c.
Proof.
  intros Hab (pre & post & ->).
  apply Substring_app_r, Substring_app_l, Hab.
Qed.

(** ** Trimming *)

Lemma lstrip_head (c : ascii) (s : string) :
  isspace c = false -> lstrip (String c s) = String c s.
Proof. intros H; simpl; now rewrite H. Qed.

Lemma rstrip_head (c : ascii) (s : string) :
  isspace c = false -> rstrip (String c s) = String c (rstrip s).
Proof. intros H; simpl; now rewrite H. Qed.

Lemma rstrip_app_keep (a b : string) :
  rstrip b <> "" -> rstrip (a ++ b) = a ++ rstrip b.
Proof.
  intros Hb; induction a as [|x a IH]; simpl; [reflexivity |].
  rewrite IH.
  destruct (a ++ rstrip b) eqn:E.
  - destruct a; simpl in E; [contradiction | discriminate].
  - simpl. now rewrite andb_false_r.
Qed.

(** What [rstrip] removes is a suffix. *)
Lemma rstrip_prefix (s : string) : exists ws, s = rstrip s ++ ws.
Proof.
  induction s as [|c s [ws IH]]; simpl.
  - now exists "".
  - destruct (isspace c && is_empty (rstrip s)) eqn:E.
    + exists (String c s). reflexivity.
    + exists ws. simpl. now rewrite <- IH.
Qed.

Lemma rstrip_Substring (s : string) : Substring (rstrip s) s.
Proof.
  destruct (rstrip_prefix s) as [ws E].
  exists "", ws. exact E.
Qed.

End StringFacts.

(* ================================================================== *)
(** * The ingestor *)

Section Ingestor.

Variable fs : FileSystem.

Lemma read_one_block (results_dir combined_data file_path : string) :
  read_one fs results_dir combined_data file_path =
  (Ok (combined_data ++ block fs results_dir file_path),
   block_events fs file_path).
Proof.
  unfold read_one, block, block_events, isfile, open_read, try_except,
    bind, emit, ret, lift.
  destruct (fs_isfile fs file_path); simpl.
  - destruct (fs_read fs file_path); reflexivity.
  - now rewrite app_empty_r.
Qed.

Lemma for_each_blocks (results_dir : string) (paths : list string) :
  forall combined_data,
    for_each paths combined_data (read_one fs results_dir) =
    (Ok (combined_data ++ concat_all (map (block fs results_dir) paths)),
     flat_map (block_events fs) paths).
Proof.
  induction paths as [|p paths IH]; intros acc; simpl.
  - unfold ret. now rewrite app_empty_r.
  - unfold bind at 1. rewrite read_one_block, IH, app_assoc_s. reflexivity.
Qed.

(** [read_files] in closed form: it always returns, and what it returns
    is [ingested]. *)
Lemma read_files_closed_form (category results_dir : string) :
  read_files fs category results_dir =
  (Ok (ingested fs category results_dir),
   if fs_isdir fs (path_join results_dir category)
   then IsDir (path_join results_dir category)
        :: Glob (path_join (path_join results_dir category) "**/*")
        :: flat_map (block_events fs) (listing fs category results_dir)
   else [IsDir (path_join results_dir category)]).
Proof.
  unfold read_files, ingested, listing, isdir, glob.
  destruct (fs_isdir fs (path_join results_dir category)); simpl.
  - unfold bind at 1. simpl. rewrite for_each_blocks. simpl.
    destruct (is_empty _); simpl; now rewrite app_nil_r.
  - reflexivity.
Qed.

End Ingestor.

Section Blocks.

Lemma clean_head_lstrip (s : string) : clean_head s -> lstrip s = s.
Proof. destruct s; simpl; [reflexivity | now intros ->]. Qed.

Lemma clean_head_app (a b : string) :
  clean_head a -> clean_head b -> clean_head (a ++ b).
Proof. destruct a; simpl; auto. Qed.

Lemma clean_head_rstrip (s : string) : clean_head s -> s <> "" -> rstrip s <> "".
Proof.
  destruct s as [|c s]; simpl; [congruence |].
  intros -> _. simpl. discriminate.
Qed.

Lemma rstrip_app_blank (a ws : string) : rstrip ws = "" -> rstrip (a ++ ws) = rstrip a.
Proof.
  intros Hws; induction a as [|c a IH]; simpl; [exact Hws | now rewrite IH].
Qed.

Lemma rstrip_LF (s : string) : rstrip (s ++ LF) = rstrip s.
Proof. apply rstrip_app_blank. reflexivity. Qed.

(** Trimming a text on the right keeps every piece of it that has something
    to keep, up to that piece's own trailing blanks. *)
Lemma rstrip_keeps_piece (pre b post : string) :
  rstrip b <> "" -> Substring (rstrip b) (rstrip (pre ++ b ++ post)).
Proof.
  intros Hb.
  destruct (string_dec (rstrip post) "") as [Hpost | Hpost].
  - pose proof (rstrip_app_blank b post Hpost) as E.
    rewrite rstrip_app_keep by (rewrite E; exact Hb).
    rewrite E. apply Substring_app_r, Substring_refl.
  - rewrite <- app_assoc_s.
    rewrite rstrip_app_keep by exact Hpost.
    apply Substring_app_l, Substring_app_r, rstrip_Substring.
Qed.

Lemma concat_all_app (l1 l2 : list string) :
  concat_all (l1 ++ l2) = concat_all l1 ++ concat_all l2.
Proof.
  induction l1 as [|x l1 IH]; simpl; [reflexivity |].
  now rewrite IH, app_assoc_s.
Qed.

Variable fs : FileSystem.
Variable results_dir : string.

Lemma block_clean_head (p : string) : clean_head (block fs results_dir p).
Proof.
  unfold block. destruct (fs_isfile fs p); [| exact I].
  destruct (fs_read fs p); reflexivity.
Qed.

Lemma block_nonempty (p : string) :
  fs_isfile fs p = true -> block fs results_dir p <> "".
Proof.
  unfold block. intros ->. destruct (fs_read fs p); discriminate.
Qed.

Lemma blocks_clean_head (paths : list string) :
  clean_head (concat_all (map (block fs results_dir) paths)).
Proof.
  induction paths as [|p paths IH]; simpl; [exact I |].
  apply clean_head_app; [apply block_clean_head | exact IH].
Qed.

(** The trimmed accumulator keeps the block of every enumerated file. *)
Lemma strip_keeps_block (paths : list string) (p : string) :
  In p paths -> fs_isfile fs p = true ->
  let combined_data := concat_all (map (block fs results_dir) paths) in
  is_empty combined_data = false /\
  Substring (rstrip (block fs results_dir p)) (strip combined_data).
Proof.
  intros Hin Hfile combined_data.
  destruct (in_split _ _ Hin) as (l1 & l2 & E).
  assert (Hsplit : combined_data =
                   concat_all (map (block fs results_dir) l1)
                   ++ block fs results_dir p
                   ++ concat_all (map (block fs results_dir) l2)).
  { unfold combined_data. rewrite E, map_app, concat_all_app. reflexivity. }
  split.
  - rewrite Hsplit, !is_empty_app.
    destruct (block fs results_dir p) eqn:Eb; simpl.
    + now apply block_nonempty in Eb.
    + apply andb_false_r.
  - unfold strip.
    rewrite (clean_head_lstrip combined_data) by apply blocks_clean_head.
    rewrite Hsplit.
    apply rstrip_keeps_piece, clean_head_rstrip;
      [apply block_clean_head | now apply block_nonempty].
Qed.

End Blocks.

(** C5.  When [results_dir/category] is not a directory, [read_files]
    returns (it does not raise) the sentinel
    "[Error] Directory <dir> does not exist.", which contains
    "does not exist"; the directory test is the only filesystem operation
    performed: nothing is enumerated, tested or opened. *)
Theorem read_files_absent_directory
  (fs : FileSystem) (category results_dir : string) :
  fs_isdir fs (path_join results_dir category) = false ->
  exists sentinel,
    read_files fs category results_dir
    = (Ok sentinel, [IsDir (path_join results_dir category)]) /\
    sentinel
    = "[Error] Directory " ++ path_join results_dir category
      ++ " does not exist." /\
    contains "does not exist" sentinel = true.
Proof.
  intros Hdir. eexists. split; [| split; [reflexivity |]].
  - rewrite read_files_closed_form. unfold ingested. now rewrite Hdir.
  - apply contains_spec.
    exists ("[Error] Directory " ++ path_join results_dir category ++ " "), ".".
    rewrite !app_assoc_s. reflexivity.
Qed.

Lemma read_files_absent_directory_witness :
  fs_isdir World.fs_sub (path_join World.RESULTS_DIR "osint") = false /\
  exists sentinel,
    read_files World.fs_sub "osint" World.RESULTS_DIR
    = (Ok sentinel, [IsDir (path_join World.RESULTS_DIR "osint")]) /\
    sentinel
    = "[Error] Directory " ++ path_join World.RESULTS_DIR "osint"
      ++ " does not exist." /\
    contains "does not exist" sentinel = true.
Proof.
  split; [reflexivity |].
  apply (read_files_absent_directory World.fs_sub "osint" World.RESULTS_DIR).
  reflexivity.
Defined.

(** C6.  On an existing category directory [read_files] never raises,
    whatever the files do when they are opened.  Its output holds, for
    every enumerated file that fails to read, the block
    "[Error] Failed to read <path>: <reason>", and for every file that
    reads, the block "--- <path> ---" followed by the file's trimmed
    content: an unreadable file costs no other file its block.  (The blocks
    are written up to trailing blanks, which the final [strip] removes
    from the last one.) *)
Theorem read_files_keeps_every_block
  (fs : FileSystem) (category results_dir : string) :
  fs_isdir fs (path_join results_dir category) = true ->
  exists out,
    fst (read_files fs category results_dir) = Ok out /\
    forall p,
      In p (listing fs category results_dir) -> fs_isfile fs p = true ->
      match fs_read fs p with
      | Raise e =>
          Substring
            (rstrip ("[Error] Failed to read " ++ fs_relpath fs p results_dir
                       ++ ": " ++ exn_text e))
            out
      | Ok content =>
          Substring
            (rstrip ("--- " ++ fs_relpath fs p results_dir ++ " ---" ++ LF
                       ++ strip content))
            out
      end.
Proof.
  intros Hdir. exists (ingested fs category results_dir).
  rewrite read_files_closed_form. split; [reflexivity |].
  intros p Hin Hfile.
  destruct (strip_keeps_block fs results_dir _ p Hin Hfile) as [Hne Hsub].
  unfold ingested. rewrite Hdir.
  unfold listing in *. rewrite Hne.
  unfold block in Hsub. rewrite Hfile in Hsub.
  destruct (fs_read fs p) as [content | e].
  - rewrite <- rstrip_LF. rewrite !app_assoc_s. exact Hsub.
  - rewrite <- rstrip_LF. rewrite !app_assoc_s. exact Hsub.
Qed.

Lemma read_files_keeps_every_block_witness :
  fs_isdir World.fs_mixed (path_join World.RESULTS_DIR "osint") = true /\
  exists out,
    fst (read_files World.fs_mixed "osint" World.RESULTS_DIR) = Ok out /\
    forall p,
      In p (listing World.fs_mixed "osint" World.RESULTS_DIR) ->
      fs_isfile World.fs_mixed p = true ->
      match fs_read World.fs_mixed p with
      | Raise e =>
          Substring
            (rstrip ("[Error] Failed to read "
                       ++ fs_relpath World.fs_mixed p World.RESULTS_DIR
                       ++ ": " ++ exn_text e))
            out
      | Ok content =>
          Substring
            (rstrip ("--- " ++ fs_relpath World.fs_mixed p World.RESULTS_DIR
                       ++ " ---" ++ LF ++ strip content))
            out
      end.
Proof.
  split; [reflexivity |].
  apply (read_files_keeps_every_block World.fs_mixed "osint" World.RESULTS_DIR).
  reflexivity.
Defined.

Section Determinism.

Lemma map_block_ext (fs1 fs2 : FileSystem) (results_dir : string)
  (paths : list string) :
  (forall p, In p paths ->
     fs_isfile fs1 p = fs_isfile fs2 p /\ fs_read fs1 p = fs_read fs2 p /\
     fs_relpath fs1 p results_dir = fs_relpath fs2 p results_dir) ->
  map (block fs1 results_dir) paths = map (block fs2 results_dir) paths /\
  flat_map (block_events fs1) paths = flat_map (block_events fs2) paths.
Proof.
  induction paths as [|p paths IH]; intros H; simpl; [now split |].
  destruct (H p (or_introl eq_refl)) as (Hf & Hr & Hp).
  destruct IH as [IHb IHe]; [intros q Hq; apply H; now right |].
  unfold block at 1 3, block_events at 1 3.
  rewrite Hf, Hr, Hp, IHb, IHe. now split.
Qed.

End Determinism.

(** C7, as the code has it.  The output of [read_files] is a function of
    what the call observes: two invocations that see the same answer to the
    directory test, the same enumeration in the same order, and the same
    files behind the enumerated paths, produce the same text (and perform
    the same operations).  The enumeration order is the one [glob] yields;
    [read_files] does not sort it. *)
Theorem read_files_determined_by_enumeration
  (fs1 fs2 : FileSystem) (category results_dir : string) :
  fs_isdir fs1 (path_join results_dir category)
  = fs_isdir fs2 (path_join results_dir category) ->
  listing fs1 category results_dir = listing fs2 category results_dir ->
  (forall p, In p (listing fs1 category results_dir) ->
     fs_isfile fs1 p = fs_isfile fs2 p /\ fs_read fs1 p = fs_read fs2 p /\
     fs_relpath fs1 p results_dir = fs_relpath fs2 p results_dir) ->
  read_files fs1 category results_dir = read_files fs2 category results_dir.
Proof.
  intros Hdir Hlist Hfiles.
  rewrite !read_files_closed_form. unfold ingested.
  rewrite <- Hdir, <- Hlist.
  destruct (map_block_ext fs1 fs2 results_dir _ Hfiles) as [-> ->].
  reflexivity.
Qed.

Lemma read_files_determined_by_enumeration_witness :
  fs_isdir World.fs_ab (path_join World.RESULTS_DIR "osint")
  = fs_isdir World.fs_ab_more (path_join World.RESULTS_DIR "osint") /\
  listing World.fs_ab "osint" World.RESULTS_DIR
  = listing World.fs_ab_more "osint" World.RESULTS_DIR /\
  (forall p, In p (listing World.fs_ab "osint" World.RESULTS_DIR) ->
     fs_isfile World.fs_ab p = fs_isfile World.fs_ab_more p /\
     fs_read World.fs_ab p = fs_read World.fs_ab_more p /\
     fs_relpath World.fs_ab p World.RESULTS_DIR
     = fs_relpath World.fs_ab_more p World.RESULTS_DIR) /\
  read_files World.fs_ab "osint" World.RESULTS_DIR
  = read_files World.fs_ab_more "osint" World.RESULTS_DIR.
Proof.
  assert (Hfiles :
    forall p, In p (listing World.fs_ab "osint" World.RESULTS_DIR) ->
      fs_isfile World.fs_ab p = fs_isfile World.fs_ab_more p /\
      fs_read World.fs_ab p = fs_read World.fs_ab_more p /\
      fs_relpath World.fs_ab p World.RESULTS_DIR
      = fs_relpath World.fs_ab_more p World.RESULTS_DIR).
  { intros p Hp. simpl in Hp.
    destruct Hp as [<- | [<- | []]]; repeat split; reflexivity. }
  split; [reflexivity | split; [reflexivity | split; [exact Hfiles |]]].
  apply (read_files_determined_by_enumeration
           World.fs_ab World.fs_ab_more "osint" World.RESULTS_DIR);
    [reflexivity | reflexivity | exact Hfiles].
Defined.

(** C7, as the claim states it, fails.  [fs_ab] and [fs_ba] hold the same
    two files with the same contents and differ only in the order the
    directory walk yields them; [read_files] follows that order, so the two
    outputs differ, and the second is not in lexicographic order. *)
Lemma read_files_follows_enumeration_order :
  same_contents World.fs_ab World.fs_ba /\
  fst (read_files World.fs_ab "osint" World.RESULTS_DIR)
  = Ok ("--- osint/a.txt ---" ++ LF ++ "alpha" ++ LF
        ++ "--- osint/b.txt ---" ++ LF ++ "beta") /\
  fst (read_files World.fs_ba "osint" World.RESULTS_DIR)
  = Ok ("--- osint/b.txt ---" ++ LF ++ "beta" ++ LF
        ++ "--- osint/a.txt ---" ++ LF ++ "alpha") /\
  fst (read_files World.fs_ab "osint" World.RESULTS_DIR)
  <> fst (read_files World.fs_ba "osint" World.RESULTS_DIR).
Proof.
  split; [| split; [reflexivity | split; [reflexivity | discriminate]]].
  unfold same_contents. repeat split.
  - intros p. simpl.
    destruct (String.eqb p "./reconftw_output/osint/a.txt"),
      (String.eqb p "./reconftw_output/osint/b.txt"); reflexivity.
  - intros p. simpl.
    destruct (String.eqb_spec p "./reconftw_output/osint/a.txt") as [-> |];
      [reflexivity |].
    destruct (String.eqb_spec p "./reconftw_output/osint/b.txt");
      reflexivity.
  - intros pattern. simpl.
    destruct (String.eqb pattern _); [apply perm_swap | apply perm_nil].
Qed.

(* ================================================================== *)
(** * Dictionaries and the task pools *)

Section Pools.

Lemma dict_set_fresh {V} (d : dict V) (k : string) (v : V) :
  ~ In k (keys d) -> dict_set d k v = (d ++ [(k, v)])%list.
Proof.
  induction d as [|[k' v'] d IH]; simpl; intros Hk; [reflexivity |].
  destruct (String.eqb_spec k k') as [-> | _].
  - exfalso. apply Hk. now left.
  - rewrite IH; [reflexivity |]. intros H. apply Hk. now right.
Qed.

Lemma keys_app {V} (d1 d2 : dict V) : keys (d1 ++ d2)%list = (keys d1 ++ keys d2)%list.
Proof. unfold keys. apply map_app. Qed.

Lemma dict_get_map (f : string -> string) (l : list string) (k : string) :
  In k l -> dict_get (map (fun c => (c, f c)) l) k = Some (f k).
Proof.
  induction l as [|c l IH]; simpl; [tauto |].
  intros [-> | Hin].
  - now rewrite String.eqb_refl.
  - destruct (String.eqb_spec k c) as [-> | _]; [reflexivity | now apply IH].
Qed.

Lemma fst_bind_ok {A B} (m : M A) (k : A -> M B) (a : A) :
  fst m = Ok a -> fst (bind m k) = fst (k a).
Proof.
  destruct m as [[a' | e] t]; simpl; intros H; [| discriminate].
  injection H as ->. now destruct (k a).
Qed.

Lemma fst_bind_inv {A B} (m : M A) (k : A -> M B) (b : B) :
  fst (bind m k) = Ok b -> exists a, fst m = Ok a /\ fst (k a) = Ok b.
Proof.
  destruct m as [[a | e] t]; simpl; [| discriminate].
  intros H. exists a. split; [reflexivity |]. now destruct (k a).
Qed.

(** A pool whose tasks all return stores their results in completion
    order. *)
Lemma gather_total (task : string -> M string) (f : string -> string)
  (done : list string) :
  (forall cat, In cat done -> fst (task cat) = Ok (f cat)) ->
  NoDup done ->
  forall d, (forall cat, In cat done -> ~ In cat (keys d)) ->
  fst (gather task done d) = Ok (d ++ map (fun c => (c, f c)) done)%list.
Proof.
  induction done as [|cat rest IH]; intros Htask Hnd d Hfresh; simpl.
  - now rewrite app_nil_r.
  - pose proof (Htask cat (or_introl eq_refl)) as Hcat.
    destruct (task cat) as [[v | e] t]; simpl in Hcat; [| discriminate].
    injection Hcat as ->.
    inversion Hnd as [| ? ? Hnotin Hnd']; subst.
    specialize (IH (fun c Hc => Htask c (or_intror Hc)) Hnd'
                   (dict_set d cat (f cat))).
    rewrite dict_set_fresh in * by (apply Hfresh; now left).
    destruct (gather task rest (d ++ [(cat, f cat)])%list) as [r t'].
    simpl in *. rewrite IH.
    + now rewrite <- List.app_assoc.
    + intros c Hc. rewrite keys_app, in_app_iff. simpl.
      intros [H | [-> | []]]; [| contradiction].
      apply (Hfresh c); [now right | exact H].
Qed.

(** Whatever its tasks do, a pool that returns has stored one entry per
    task, in completion order. *)
Lemma gather_keys (task : string -> M string) (done : list string) :
  NoDup done ->
  forall d r, (forall cat, In cat done -> ~ In cat (keys d)) ->
  fst (gather task done d) = Ok r ->
  keys r = (keys d ++ done)%list.
Proof.
  induction done as [|cat rest IH]; intros Hnd d r Hfresh; simpl.
  - intros H. injection H as <-. now rewrite app_nil_r.
  - inversion Hnd as [| ? ? Hnotin Hnd']; subst.
    destruct (task cat) as [[v | e] t]; [| discriminate].
    specialize (IH Hnd' (dict_set d cat v) r).
    rewrite dict_set_fresh in * by (apply Hfresh; now left).
    destruct (gather task rest (d ++ [(cat, v)])%list) as [r' t'].
    simpl in *. intros H. rewrite IH; [| | exact H].
    + rewrite keys_app. simpl. now rewrite <- List.app_assoc.
    + intros c Hc. rewrite keys_app, in_app_iff. simpl.
      intros [H' | [-> | []]]; [| contradiction].
      apply (Hfresh c); [now right | exact H'].
Qed.

Lemma CATEGORIES_NoDup : NoDup CATEGORIES.
Proof.
  unfold CATEGORIES.
  repeat (constructor; [simpl; intuition discriminate |]). constructor.
Qed.

Lemma completion_order (done : list string) :
  Permutation done CATEGORIES ->
  NoDup done /\ ~ In "overview" done /\
  (forall cat, In cat CATEGORIES <-> In cat done) /\
  List.length done = List.length CATEGORIES.
Proof.
  intros HP. repeat split.
  - apply (Permutation_NoDup (Permutation_sym HP)), CATEGORIES_NoDup.
  - intros H. apply (Permutation_in _ HP) in H.
    simpl in H. intuition discriminate.
  - apply Permutation_in, Permutation_sym, HP.
  - apply Permutation_in, HP.
  - apply Permutation_length, HP.
Qed.

End Pools.

(* ================================================================== *)
(** * The analysis client *)

Section AnalysisClient.

Variable str_format : string -> string -> result string.

(** Composing the prompt touches nothing outside the process. *)
Lemma prompt_no_events (base_prompts : json)
  (report_type category data : string) :
  snd (prompt str_format base_prompts report_type category data) = [].
Proof.
  unfold prompt, prompt_template, json_get, format_template, bind, ret,
    raise, lift.
  destruct base_prompts as [| | | | | |members]; try reflexivity.
  destruct (dict_get members report_type) as [variant |].
  - destruct variant as [| | | | | |inner]; try reflexivity.
    destruct (dict_get inner category) as [template |]; [| reflexivity].
    destruct template; reflexivity.
  - reflexivity.
Qed.

Lemma process_category_invalid (client : Client)
  (category data model_name report_type : string) (base_prompts : json) :
  is_empty data || contains "[Error]" data = true ->
  process_category str_format client category data model_name report_type
    base_prompts
  = (Ok ("[Error] No valid data available for " ++ category ++ "."), []).
Proof. unfold process_category. now intros ->. Qed.

Lemma process_category_valid (client : Client)
  (category data model_name report_type contents : string)
  (base_prompts : json) :
  is_empty data || contains "[Error]" data = false ->
  fst (prompt str_format base_prompts report_type category data) = Ok contents ->
  process_category str_format client category data model_name report_type
    base_prompts
  = (Ok (match client model_name contents with
         | Ok text => text
         | Raise e =>
             "[Error] Failed to process " ++ category ++ " with Gemini: "
             ++ exn_text e
         end),
     [GenerateContent model_name contents]).
Proof.
  intros Hvalid Hprompt. unfold process_category. rewrite Hvalid.
  pose proof (prompt_no_events base_prompts report_type category data) as Hev.
  destruct (prompt str_format base_prompts report_type category data)
    as [r t].
  simpl in Hprompt, Hev. subst r t.
  unfold bind, try_except, generate_content, bind, emit, lift, ret.
  destruct (client model_name contents); reflexivity.
Qed.

Lemma process_category_propagates (client : Client)
  (category data model_name report_type : string) (base_prompts : json)
  (e : exn) :
  is_empty data || contains "[Error]" data = false ->
  fst (prompt str_format base_prompts report_type category data) = Raise e ->
  process_category str_format client category data model_name report_type
    base_prompts
  = (Raise e, []).
Proof.
  intros Hvalid Hprompt. unfold process_category. rewrite Hvalid.
  pose proof (prompt_no_events base_prompts report_type category data) as Hev.
  destruct (prompt str_format base_prompts report_type category data)
    as [r t].
  simpl in Hprompt, Hev. subst r t. reflexivity.
Qed.

(** When every prompt composes, the client always returns a text. *)
Lemma process_category_total (client : Client)
  (category data model_name report_type : string) (base_prompts : json) :
  (exists contents,
     fst (prompt str_format base_prompts report_type category data)
     = Ok contents) ->
  exists text,
    fst (process_category str_format client category data model_name
           report_type base_prompts) = Ok text.
Proof.
  intros [contents Hprompt].
  destruct (is_empty data || contains "[Error]" data) eqn:Hvalid.
  - rewrite process_category_invalid by exact Hvalid. now eexists.
  - rewrite (process_category_valid _ _ _ _ _ contents) by assumption.
    now eexists.
Qed.

End AnalysisClient.

Section Marker.

(** The marker survives trimming. *)
Lemma marker_rstrip (s : string) :
  Substring "[Error]" s -> Substring "[Error]" (rstrip s).
Proof.
  intros (pre & post & ->).
  apply (rstrip_keeps_piece pre "[Error]" post). discriminate.
Qed.

Lemma marker_lstrip (s : string) :
  Substring "[Error]" s -> Substring "[Error]" (lstrip s).
Proof.
  induction s as [|c s IH]; intros H; [exact H |].
  simpl. destruct (isspace c) eqn:Hc; [| exact H].
  apply IH. destruct H as (pre & post & E).
  destruct pre as [|c' pre]; simpl in E.
  - injection E as -> _. discriminate.
  - injection E as _ ->. now exists pre, post.
Qed.

Lemma marker_strip (s : string) :
  Substring "[Error]" s -> Substring "[Error]" (strip s).
Proof. intros H. apply marker_rstrip, marker_lstrip, H. Qed.

(** An unreadable file, or a readable one whose content holds the marker,
    puts the marker into the category's raw data. *)
Lemma marker_in_ingested (fs : FileSystem) (category results_dir p : string) :
  fs_isdir fs (path_join results_dir category) = true ->
  In p (listing fs category results_dir) ->
  fs_isfile fs p = true ->
  match fs_read fs p with
  | Raise _ => True
  | Ok content => Substring "[Error]" content
  end ->
  Substring "[Error]" (ingested fs category results_dir).
Proof.
  intros Hdir Hin Hfile Hread.
  destruct (strip_keeps_block fs results_dir _ p Hin Hfile) as [Hne Hsub].
  unfold ingested. rewrite Hdir. unfold listing in *. rewrite Hne.
  refine (Substring_trans _ _ _ _ Hsub).
  apply marker_rstrip. unfold block. rewrite Hfile.
  destruct (fs_read fs p) as [content | e].
  - apply Substring_app_r, Substring_app_r, Substring_app_r, Substring_app_r,
      Substring_app_l, marker_strip, Hread.
  - eexists "", _. simpl. reflexivity.
Qed.

End Marker.

(** C1, as the code has it.  [process_category] returns the
    "[Error] No valid data available for <category>." result, with no call
    of the generation service (no event at all), when the data is empty,
    when it contains the marker "[Error]", and so in particular when it is
    what [read_files] returned for an absent category directory. *)
Theorem process_category_short_circuit
  (str_format : string -> string -> result string) (client : Client)
  (category data model_name report_type : string) (base_prompts : json) :
  (data = "" \/ Substring "[Error]" data \/
   exists fs results_dir,
     fs_isdir fs (path_join results_dir category) = false /\
     fst (read_files fs category results_dir) = Ok data) ->
  process_category str_format client category data model_name report_type
    base_prompts
  = (Ok ("[Error] No valid data available for " ++ category ++ "."), []).
Proof.
  intros H. apply process_category_invalid.
  destruct H as [-> | [H | (fs & results_dir & Hdir & Hread)]].
  - reflexivity.
  - apply contains_spec in H. rewrite H. apply orb_true_r.
  - rewrite read_files_closed_form in Hread. simpl in Hread.
    unfold ingested in Hread. rewrite Hdir in Hread.
    injection Hread as <-. reflexivity.
Qed.

Lemma process_category_short_circuit_witness :
  (exists fs results_dir,
     fs_isdir fs (path_join results_dir "osint") = false /\
     fst (read_files fs "osint" results_dir)
     = Ok "[Error] Directory ./reconftw_output/osint does not exist.") /\
  process_category format_plain World.echo "osint"
    "[Error] Directory ./reconftw_output/osint does not exist."
    World.MODEL "executive" World.no_catalog
  = (Ok ("[Error] No valid data available for " ++ "osint" ++ "."), []).
Proof.
  assert (H : exists fs results_dir,
             fs_isdir fs (path_join results_dir "osint") = false /\
             fst (read_files fs "osint" results_dir)
             = Ok "[Error] Directory ./reconftw_output/osint does not exist.").
  { exists World.fs_sub, World.RESULTS_DIR. split; reflexivity. }
  split; [exact H |].
  apply (process_category_short_circuit format_plain World.echo "osint"
           "[Error] Directory ./reconftw_output/osint does not exist."
           World.MODEL "executive" World.no_catalog).
  right. right. exact H.
Defined.

(** C1, as the claim states it, fails on the "[Info] No files found"
    sentinel.  For an existing, empty [osint] directory [read_files]
    returns that sentinel; it holds no "[Error]" marker, so
    [process_category] composes a prompt from it and calls the service
    once. *)
Lemma info_sentinel_reaches_service :
  fst (read_files World.fs_empty "osint" World.RESULTS_DIR)
  = Ok "[Info] No files found in ./reconftw_output/osint." /\
  process_category format_plain World.echo "osint"
    "[Info] No files found in ./reconftw_output/osint."
    World.MODEL "executive" World.no_catalog
  = (Ok ("Findings for: "
         ++ "Analyze this reconnaissance data and highlight high-risk findings:"
         ++ LF ++ "[Info] No files found in ./reconftw_output/osint."),
     [GenerateContent World.MODEL
        ("Analyze this reconnaissance data and highlight high-risk findings:"
         ++ LF ++ "[Info] No files found in ./reconftw_output/osint.")]).
Proof. split; reflexivity. Qed.

(** C10.  If the marker "[Error]" occurs anywhere in a category's data,
    [process_category] answers "[Error] No valid data available for
    <category>." for the whole category and does not call the service.
    That is the case of data ingested from a directory in which one file
    failed to read, or in which one readable file holds the marker in its
    content, whatever the other files hold. *)
Theorem error_marker_discards_category
  (str_format : string -> string -> result string) (client : Client)
  (category data model_name report_type : string) (base_prompts : json) :
  (Substring "[Error]" data \/
   exists fs results_dir p,
     fs_isdir fs (path_join results_dir category) = true /\
     In p (listing fs category results_dir) /\
     fs_isfile fs p = true /\
     match fs_read fs p with
     | Raise _ => True
     | Ok content => Substring "[Error]" content
     end /\
     fst (read_files fs category results_dir) = Ok data) ->
  process_category str_format client category data model_name report_type
    base_prompts
  = (Ok ("[Error] No valid data available for " ++ category ++ "."), []).
Proof.
  intros H. apply process_category_invalid.
  assert (Hsub : Substring "[Error]" data).
  { destruct H as [H | (fs & results_dir & p & Hdir & Hin & Hfile & Hp & Hread)];
      [exact H |].
    rewrite read_files_closed_form in Hread. simpl in Hread.
    injection Hread as <-.
    exact (marker_in_ingested fs category results_dir p Hdir Hin Hfile Hp). }
  apply contains_spec in Hsub. rewrite Hsub. apply orb_true_r.
Qed.

Lemma error_marker_discards_category_witness :
  (exists fs results_dir p,
     fs_isdir fs (path_join results_dir "osint") = true /\
     In p (listing fs "osint" results_dir) /\
     fs_isfile fs p = true /\
     match fs_read fs p with
     | Raise _ => True
     | Ok content => Substring "[Error]" content
     end /\
     fst (read_files fs "osint" results_dir)
     = Ok ("[Error] Failed to read osint/dump.bin: "
           ++ "'utf-8' codec can't decode byte 0xff in position 0: invalid start byte"
           ++ LF ++ "--- osint/emails.txt ---" ++ LF ++ "admin@example.com")) /\
  process_category format_plain World.echo "osint"
    ("[Error] Failed to read osint/dump.bin: "
     ++ "'utf-8' codec can't decode byte 0xff in position 0: invalid start byte"
     ++ LF ++ "--- osint/emails.txt ---" ++ LF ++ "admin@example.com")
    World.MODEL "executive" World.no_catalog
  = (Ok ("[Error] No valid data available for " ++ "osint" ++ "."), []).
Proof.
  assert (H : exists fs results_dir p,
     fs_isdir fs (path_join results_dir "osint") = true /\
     In p (listing fs "osint" results_dir) /\
     fs_isfile fs p = true /\
     match fs_read fs p with
     | Raise _ => True
     | Ok content => Substring "[Error]" content
     end /\
     fst (read_files fs "osint" results_dir)
     = Ok ("[Error] Failed to read osint/dump.bin: "
           ++ "'utf-8' codec can't decode byte 0xff in position 0: invalid start byte"
           ++ LF ++ "--- osint/emails.txt ---" ++ LF ++ "admin@example.com")).
  { exists World.fs_mixed, World.RESULTS_DIR, "./reconftw_output/osint/dump.bin".
    split; [reflexivity |]. split; [now left |].
    split; [reflexivity |]. split; [exact I | reflexivity]. }
  split; [exact H |].
  apply (error_marker_discards_category format_plain World.echo "osint" _
           World.MODEL "executive" World.no_catalog).
  right. exact H.
Defined.

(** C2, as the code has it.  On valid data (not empty, no "[Error]"
    marker) for which the prompt composes, [process_category] calls the
    service once and always returns a text: the service's answer, or, when
    the call fails, the sentinel "[Error] Failed to process <category> with
    Gemini: <reason>".  It does not raise. *)
Theorem process_category_service_failure_is_text
  (str_format : string -> string -> result string) (client : Client)
  (category data model_name report_type contents : string)
  (base_prompts : json) :
  data <> "" -> contains "[Error]" data = false ->
  fst (prompt str_format base_prompts report_type category data) = Ok contents ->
  process_category str_format client category data model_name report_type
    base_prompts
  = (Ok (match client model_name contents with
         | Ok text => text
         | Raise e =>
             "[Error] Failed to process " ++ category ++ " with Gemini: "
             ++ exn_text e
         end),
     [GenerateContent model_name contents]).
Proof.
  intros Hne Hmark Hprompt. apply process_category_valid; [| exact Hprompt].
  rewrite Hmark, orb_false_r.
  destruct data; [congruence | reflexivity].
Qed.

Lemma process_category_service_failure_is_text_witness :
  "--- osint/a.txt ---" ++ LF ++ "alpha" <> "" /\
  contains "[Error]" ("--- osint/a.txt ---" ++ LF ++ "alpha") = false /\
  fst (prompt format_plain World.no_catalog "executive" "osint"
         ("--- osint/a.txt ---" ++ LF ++ "alpha"))
  = Ok ("Analyze this reconnaissance data and highlight high-risk findings:"
        ++ LF ++ "--- osint/a.txt ---" ++ LF ++ "alpha") /\
  process_category format_plain World.exhausted "osint"
    ("--- osint/a.txt ---" ++ LF ++ "alpha") World.MODEL "executive"
    World.no_catalog
  = (Ok ("[Error] Failed to process osint with Gemini: 429 RESOURCE_EXHAUSTED"),
     [GenerateContent World.MODEL
        ("Analyze this reconnaissance data and highlight high-risk findings:"
         ++ LF ++ "--- osint/a.txt ---" ++ LF ++ "alpha")]).
Proof.
  split; [discriminate |]. split; [reflexivity |]. split; [reflexivity |].
  apply (process_category_service_failure_is_text format_plain World.exhausted
           "osint" ("--- osint/a.txt ---" ++ LF ++ "alpha") World.MODEL
           "executive" _ World.no_catalog);
    [discriminate | reflexivity | reflexivity].
Defined.

(** C2, as the claim states it, fails on a template substitution.  The
    catalog's template for (executive, osint) names a field [target] that
    [format(data=...)] is not given: the [KeyError] leaves
    [process_category], and the service is not called. *)
Lemma template_failure_propagates :
  process_category format_plain World.echo "osint" "alpha" World.MODEL
    "executive" World.catalog_target
  = (Raise (mkExn "KeyError" "'target'"), []).
Proof. reflexivity. Qed.

(* ================================================================== *)
(** * The orchestrator *)

Section Orchestrator.

Variable fs : FileSystem.
Variable str_format : string -> string -> result string.

Lemma keys_map (f : string -> string) (l : list string) :
  keys (map (fun c => (c, f c)) l) = l.
Proof.
  unfold keys. rewrite map_map. simpl. apply map_id.
Qed.

(** Step 1 always returns: one raw text per category, stored in the order
    the reads completed. *)
Lemma raw_data_closed_form (done1 : list string) (results_dir : string) :
  NoDup done1 ->
  fst (raw_data_per_category fs done1 results_dir)
  = Ok (map (fun cat => (cat, ingested fs cat results_dir)) done1).
Proof.
  intros Hnd. unfold raw_data_per_category.
  apply (gather_total _ (fun cat => ingested fs cat results_dir) done1);
    [| exact Hnd | intros cat _ []].
  intros cat _. now rewrite read_files_closed_form.
Qed.

Lemma all_data_closed_form (done1 : list string) (results_dir : string) :
  all_data (map (fun cat => (cat, ingested fs cat results_dir)) done1)
  = join (LF ++ LF)
      (map (fun cat => upper cat ++ ":" ++ LF ++ ingested fs cat results_dir)
           done1).
Proof. unfold all_data. now rewrite map_map. Qed.

(** Step 2, once every prompt composes: every analysis returns. *)
Lemma analysis_task_total (client : Client) (raw : dict string)
  (model_name report_type : string) (base_prompts : json)
  (cat v : string) :
  dict_get raw cat = Some v ->
  (exists contents,
     fst (prompt str_format base_prompts report_type cat v) = Ok contents) ->
  exists text,
    fst (data <- subscript raw cat ;;
         process_category str_format client cat data model_name report_type
           base_prompts) = Ok text.
Proof.
  intros Hget Hprompt.
  rewrite (fst_bind_ok _ _ v) by (unfold subscript; now rewrite Hget).
  now apply process_category_total.
Qed.

End Orchestrator.

Lemma gather_returns (task : string -> M string) (done : list string) :
  (forall cat, In cat done -> exists v, fst (task cat) = Ok v) ->
  forall d, exists r, fst (gather task done d) = Ok r.
Proof.
  induction done as [|cat rest IH]; intros Htask d; simpl.
  - now exists d.
  - destruct (Htask cat (or_introl eq_refl)) as [v Hv].
    destruct (task cat) as [[v' | e] t]; simpl in Hv; [| discriminate].
    destruct (IH (fun c Hc => Htask c (or_intror Hc)) (dict_set d cat v'))
      as [r Hr].
    destruct (gather task rest (dict_set d cat v')) as [r' t'].
    now exists r.
Qed.

(** C3, as the code has it.  When every prompt composes (the catalog's
    templates are strings that [format(data=...)] accepts), the run
    returns, whatever the filesystem holds, whatever the service answers
    or however it fails, and in whatever order the tasks complete; the
    report has one section per category, in the order the analyses
    completed, followed by [overview]: [|CATEGORIES| + 1] sections. *)
Theorem analyze_returns_all_sections
  (fs : FileSystem) (str_format : string -> string -> result string)
  (client : Client) (done1 done2 : list string)
  (results_dir model_name report_type : string) (base_prompts : json) :
  Permutation done1 CATEGORIES ->
  Permutation done2 CATEGORIES ->
  (forall category data,
     In category (CATEGORIES ++ ["overview"])%list ->
     exists contents,
       fst (prompt str_format base_prompts report_type category data)
       = Ok contents) ->
  exists results,
    fst (analyze_reconftw_results fs str_format client done1 done2
           results_dir model_name report_type base_prompts) = Ok results /\
    keys results = (done2 ++ ["overview"])%list /\
    List.length results = List.length CATEGORIES + 1.
Proof.
  intros HP1 HP2 Hprompt.
  destruct (completion_order done1 HP1) as (Hnd1 & _ & Hin1 & _).
  destruct (completion_order done2 HP2) as (Hnd2 & Hov & Hin2 & Hlen).
  set (raw := map (fun cat => (cat, ingested fs cat results_dir)) done1).
  set (task := fun cat =>
         data <- subscript raw cat ;;
         process_category str_format client cat data model_name report_type
           base_prompts).
  destruct (gather_returns task done2) with (d := @nil (string * string))
    as [results Hresults].
  { intros cat Hcat. unfold task.
    apply (analysis_task_total _ _ _ _ _ _ _ (ingested fs cat results_dir)).
    - unfold raw.
      apply (dict_get_map (fun c => ingested fs c results_dir)).
      now apply Hin1, Hin2.
    - apply Hprompt, in_or_app. left. now apply Hin2. }
  pose proof (gather_keys task done2 Hnd2 [] results (fun _ _ H => H) Hresults)
    as Hkeys.
  simpl in Hkeys.
  destruct (process_category_total str_format client "overview" (all_data raw)
              model_name report_type base_prompts) as [overview Hoverview].
  { apply Hprompt, in_or_app. right. now left. }
  exists (dict_set results "overview" overview).
  split; [| split].
  - unfold analyze_reconftw_results.
    rewrite (fst_bind_ok _ _ raw) by now apply raw_data_closed_form.
    fold task. rewrite (fst_bind_ok _ _ results) by exact Hresults.
    rewrite (fst_bind_ok _ _ overview) by exact Hoverview.
    reflexivity.
  - rewrite dict_set_fresh by now rewrite Hkeys.
    rewrite keys_app, Hkeys. reflexivity.
  - rewrite dict_set_fresh by now rewrite Hkeys.
    rewrite List.length_app. simpl.
    unfold keys in Hkeys.
    rewrite <- (List.length_map fst results), Hkeys, Hlen. reflexivity.
Qed.

Lemma analyze_returns_all_sections_witness :
  Permutation ["subdomains"; "osint"; "hosts"; "webs"] CATEGORIES /\
  Permutation ["osint"; "subdomains"; "webs"; "hosts"] CATEGORIES /\
  (forall category data,
     In category (CATEGORIES ++ ["overview"])%list ->
     exists contents,
       fst (prompt format_plain World.no_catalog "executive" category data)
       = Ok contents) /\
  exists results,
    fst (analyze_reconftw_results World.fs_sub format_plain World.exhausted
           ["subdomains"; "osint"; "hosts"; "webs"]
           ["osint"; "subdomains"; "webs"; "hosts"]
           World.RESULTS_DIR World.MODEL "executive" World.no_catalog)
    = Ok results /\
    keys results = (["osint"; "subdomains"; "webs"; "hosts"] ++ ["overview"])%list /\
    List.length results = List.length CATEGORIES + 1.
Proof.
  assert (HP1 : Permutation ["subdomains"; "osint"; "hosts"; "webs"] CATEGORIES)
    by apply perm_swap.
  assert (HP2 : Permutation ["osint"; "subdomains"; "webs"; "hosts"] CATEGORIES)
    by (do 2 apply perm_skip; apply perm_swap).
  assert (Hprompt : forall category data,
     In category (CATEGORIES ++ ["overview"])%list ->
     exists contents,
       fst (prompt format_plain World.no_catalog "executive" category data)
       = Ok contents)
    by (intros category data _; eexists; cbn; reflexivity).
  split; [exact HP1 | split; [exact HP2 | split; [exact Hprompt |]]].
  apply (analyze_returns_all_sections World.fs_sub format_plain World.exhausted
           ["subdomains"; "osint"; "hosts"; "webs"]
           ["osint"; "subdomains"; "webs"; "hosts"]
           World.RESULTS_DIR World.MODEL "executive" World.no_catalog
           HP1 HP2 Hprompt).
Defined.

(** C3, as the claim states it, fails: the run can raise.  With a catalog
    whose [osint] template names a field that [format(data=...)] is not
    given, and an [osint] directory that holds data, the [KeyError] of the
    substitution leaves [process_category], [future.result()] re-raises it,
    and [analyze_reconftw_results] returns no report. *)
Lemma analyze_raises_on_template_failure :
  Permutation CATEGORIES CATEGORIES /\
  fst (analyze_reconftw_results World.fs_ab format_plain World.echo
         CATEGORIES CATEGORIES World.RESULTS_DIR World.MODEL "executive"
         World.catalog_target)
  = Raise (mkExn "KeyError" "'target'").
Proof. split; [apply Permutation_refl | reflexivity]. Qed.

(** C4, as the code has it.  When the reads complete in the order [done1],
    step 1 returns the raw data of the four categories, each being what
    [read_files] returned for it, and the text handed to the overview call
    of [process_category] is the raw data (not the analyses), each block
    headed by the upper-cased category name, a colon and a line feed,
    the blocks joined by a blank line, in the order [done1]. *)
Theorem overview_input_is_raw_data
  (fs : FileSystem) (str_format : string -> string -> result string)
  (client : Client) (done1 done2 : list string)
  (results_dir model_name report_type : string) (base_prompts : json) :
  Permutation done1 CATEGORIES ->
  let text :=
    join (LF ++ LF)
      (map (fun cat => upper cat ++ ":" ++ LF ++ ingested fs cat results_dir)
           done1) in
  (forall cat, fst (read_files fs cat results_dir)
               = Ok (ingested fs cat results_dir)) /\
  (exists raw,
     fst (raw_data_per_category fs done1 results_dir) = Ok raw /\
     all_data raw = text) /\
  analyze_reconftw_results fs str_format client done1 done2 results_dir
    model_name report_type base_prompts
  = (raw <- raw_data_per_category fs done1 results_dir ;;
     results <-
       gather (fun cat =>
                 data <- subscript raw cat ;;
                 process_category str_format client cat data model_name
                   report_type base_prompts)
              done2 [] ;;
     overview <- process_category str_format client "overview" text
                   model_name report_type base_prompts ;;
     ret (dict_set results "overview" overview)).
Proof.
  intros HP1 text.
  destruct (completion_order done1 HP1) as (Hnd1 & _).
  pose proof (raw_data_closed_form fs done1 results_dir Hnd1) as Hraw.
  pose proof (all_data_closed_form fs done1 results_dir) as Htext.
  fold text in Htext.
  split; [| split].
  - intros cat. now rewrite read_files_closed_form.
  - eexists. split; [exact Hraw | exact Htext].
  - unfold analyze_reconftw_results.
    destruct (raw_data_per_category fs done1 results_dir) as [r t].
    simpl in Hraw. subst r. unfold bind at 1 4. now rewrite Htext.
Qed.

Lemma overview_input_is_raw_data_witness :
  Permutation ["subdomains"; "osint"; "hosts"; "webs"] CATEGORIES /\
  let text :=
    join (LF ++ LF)
      (map (fun cat => upper cat ++ ":" ++ LF
                       ++ ingested World.fs_sub cat World.RESULTS_DIR)
           ["subdomains"; "osint"; "hosts"; "webs"]) in
  (forall cat, fst (read_files World.fs_sub cat World.RESULTS_DIR)
               = Ok (ingested World.fs_sub cat World.RESULTS_DIR)) /\
  (exists raw,
     fst (raw_data_per_category World.fs_sub
            ["subdomains"; "osint"; "hosts"; "webs"] World.RESULTS_DIR)
     = Ok raw /\
     all_data raw = text) /\
  analyze_reconftw_results World.fs_sub format_plain World.echo
    ["subdomains"; "osint"; "hosts"; "webs"] CATEGORIES World.RESULTS_DIR
    World.MODEL "executive" World.no_catalog
  = (raw <- raw_data_per_category World.fs_sub
              ["subdomains"; "osint"; "hosts"; "webs"] World.RESULTS_DIR ;;
     results <-
       gather (fun cat =>
                 data <- subscript raw cat ;;
                 process_category format_plain World.echo cat data World.MODEL
                   "executive" World.no_catalog)
              CATEGORIES [] ;;
     overview <- process_category format_plain World.echo "overview" text
                   World.MODEL "executive" World.no_catalog ;;
     ret (dict_set results "overview" overview)).
Proof.
  assert (HP1 : Permutation ["subdomains"; "osint"; "hosts"; "webs"] CATEGORIES)
    by apply perm_swap.
  split; [exact HP1 |].
  apply (overview_input_is_raw_data World.fs_sub format_plain World.echo
           ["subdomains"; "osint"; "hosts"; "webs"] CATEGORIES
           World.RESULTS_DIR World.MODEL "executive" World.no_catalog HP1).
Defined.

(** C4, as the claim states it, fails on the order.  When the read of
    [subdomains] completes before that of [osint], the text handed to the
    overview call opens with the SUBDOMAINS block: it is not the
    concatenation in the declared category order. *)
Lemma overview_input_follows_completion_order :
  Permutation ["subdomains"; "osint"; "hosts"; "webs"] CATEGORIES /\
  exists raw,
    fst (raw_data_per_category World.fs_sub
           ["subdomains"; "osint"; "hosts"; "webs"] World.RESULTS_DIR)
    = Ok raw /\
    all_data raw
    = "SUBDOMAINS:" ++ LF ++ "--- subdomains/a.txt ---" ++ LF
      ++ "sub.example.com" ++ LF ++ LF
      ++ "OSINT:" ++ LF
      ++ "[Error] Directory ./reconftw_output/osint does not exist."
      ++ LF ++ LF
      ++ "HOSTS:" ++ LF
      ++ "[Error] Directory ./reconftw_output/hosts does not exist."
      ++ LF ++ LF
      ++ "WEBS:" ++ LF
      ++ "[Error] Directory ./reconftw_output/webs does not exist." /\
    all_data raw
    <> join (LF ++ LF)
         (map (fun cat => upper cat ++ ":" ++ LF
                          ++ ingested World.fs_sub cat World.RESULTS_DIR)
              CATEGORIES).
Proof.
  split; [apply perm_swap |].
  eexists. split; [reflexivity |]. split; [reflexivity |].
  intros H. vm_compute in H. discriminate H.
Qed.

(* ================================================================== *)
(** * The report writer *)

Section ReportWriter.

(** A dictionary is the list of its keys, each with its value. *)
Lemma dict_items_by_key (d : dict string) :
  NoDup (keys d) -> d = map (fun k => (k, section_text d k)) (keys d).
Proof.
  induction d as [|[k v] d IH]; simpl; intros Hnd; [reflexivity |].
  inversion Hnd as [| ? ? Hnotin Hnd']; subst.
  unfold section_text at 1. simpl. rewrite String.eqb_refl. f_equal.
  rewrite (IH Hnd') at 1.
  apply map_ext_in. intros k' Hk'.
  unfold section_text. simpl.
  destruct (String.eqb_spec k' k) as [-> | _]; [contradiction | reflexivity].
Qed.

Lemma sections_by_key (render : string * string -> string) (d : dict string) :
  NoDup (keys d) ->
  concat_all (map render d)
  = concat_all (map (fun k => render (k, section_text d k)) (keys d)).
Proof.
  intros Hnd. rewrite (dict_items_by_key d Hnd) at 1.
  now rewrite map_map.
Qed.

(** The sections of a report the orchestrator returned. *)
Lemma analyze_keys (fs : FileSystem)
  (str_format : string -> string -> result string) (client : Client)
  (done1 done2 : list string) (results_dir model_name report_type : string)
  (base_prompts : json) (results : dict string) :
  Permutation done2 CATEGORIES ->
  fst (analyze_reconftw_results fs str_format client done1 done2 results_dir
         model_name report_type base_prompts) = Ok results ->
  keys results = (done2 ++ ["overview"])%list.
Proof.
  intros HP2 Hrun.
  destruct (completion_order done2 HP2) as (Hnd2 & Hov & _).
  unfold analyze_reconftw_results in Hrun.
  apply fst_bind_inv in Hrun as (raw & _ & Hrun).
  apply fst_bind_inv in Hrun as (results0 & Hgather & Hrun).
  apply fst_bind_inv in Hrun as (overview & _ & Hrun).
  simpl in Hrun. injection Hrun as <-.
  apply gather_keys in Hgather; [| exact Hnd2 | intros _ _ []].
  simpl in Hgather.
  rewrite dict_set_fresh by now rewrite Hgather.
  now rewrite keys_app, Hgather.
Qed.

Lemma completion_then_overview_NoDup (done2 : list string) :
  Permutation done2 CATEGORIES -> NoDup (done2 ++ ["overview"])%list.
Proof.
  intros HP2. destruct (completion_order done2 HP2) as (Hnd2 & Hov & _).
  apply NoDup_app; repeat split.
  - exact Hnd2.
  - repeat constructor. intros [].
  - intros x Hx [<- | []]. contradiction.
Qed.

End ReportWriter.

(** C8, as the code has it.  For a report the orchestrator returned, with
    the analyses completed in the order [done2], [save_results] writes, in
    both formats, the header followed by one section per category in the
    order [done2] and then the [overview] section, last; every section is
    headed by its upper-cased name. *)
Theorem report_sections_follow_completion_order
  (fs : FileSystem) (str_format : string -> string -> result string)
  (client : Client) (done1 done2 : list string)
  (results_dir model_name report_type output_dir : string)
  (base_prompts : json) (now : datetime) (results : dict string) :
  Permutation done2 CATEGORIES ->
  fst (analyze_reconftw_results fs str_format client done1 done2 results_dir
         model_name report_type base_prompts) = Ok results ->
  save_results now results output_dir model_name "md" report_type
  = (Ok tt,
     [MakeDirs output_dir;
      WriteFile
        (path_join output_dir
           ("reconftw_analysis_" ++ report_type ++ "_" ++ strftime now
              ++ ".md"))
        (md_header model_name report_type (strftime now)
         ++ concat_all
              (map (fun name =>
                      "## " ++ upper name ++ LF ++ LF
                      ++ section_text results name ++ LF ++ LF)
                   (done2 ++ ["overview"])%list))]) /\
  save_results now results output_dir model_name "txt" report_type
  = (Ok tt,
     [MakeDirs output_dir;
      WriteFile
        (path_join output_dir
           ("reconftw_analysis_" ++ report_type ++ "_" ++ strftime now
              ++ ".txt"))
        (txt_header model_name report_type (strftime now)
         ++ concat_all
              (map (fun name =>
                      "=== " ++ upper name ++ " ===" ++ LF
                      ++ section_text results name ++ LF ++ LF)
                   (done2 ++ ["overview"])%list))]).
Proof.
  intros HP2 Hrun.
  pose proof (analyze_keys _ _ _ _ _ _ _ _ _ _ HP2 Hrun) as Hkeys.
  pose proof (completion_then_overview_NoDup done2 HP2) as Hnd.
  rewrite <- Hkeys in Hnd.
  unfold save_results, report_body, bind, emit. simpl.
  rewrite (sections_by_key md_section results Hnd).
  rewrite (sections_by_key txt_section results Hnd).
  rewrite Hkeys. split; reflexivity.
Qed.

Lemma report_sections_follow_completion_order_witness :
  Permutation ["subdomains"; "osint"; "hosts"; "webs"] CATEGORIES /\
  fst (analyze_reconftw_results World.fs_sub format_plain World.echo
         CATEGORIES ["subdomains"; "osint"; "hosts"; "webs"]
         World.RESULTS_DIR World.MODEL "brief" World.no_catalog)
  = Ok World.report_sub /\
  snd (save_results World.NOW World.report_sub "./reconftw_ai_output"
         World.MODEL "txt" "brief")
  = [MakeDirs "./reconftw_ai_output";
     WriteFile "./reconftw_ai_output/reconftw_analysis_brief_20261104_221600.txt"
       ("ReconFTW-AI Analysis" ++ LF ++ "Model: gemini-2.0-flash" ++ LF
        ++ "Report Type: brief" ++ LF ++ "Date: 20261104_221600" ++ LF
        ++ "============================================================"
        ++ LF ++ LF
        ++ "=== SUBDOMAINS ===" ++ LF
        ++ "Findings for: "
        ++ "Analyze this reconnaissance data and highlight high-risk findings:"
        ++ LF ++ "--- subdomains/a.txt ---" ++ LF ++ "sub.example.com"
        ++ LF ++ LF
        ++ "=== OSINT ===" ++ LF
        ++ "[Error] No valid data available for osint." ++ LF ++ LF
        ++ "=== HOSTS ===" ++ LF
        ++ "[Error] No valid data available for hosts." ++ LF ++ LF
        ++ "=== WEBS ===" ++ LF
        ++ "[Error] No valid data available for webs." ++ LF ++ LF
        ++ "=== OVERVIEW ===" ++ LF
        ++ "[Error] No valid data available for overview." ++ LF ++ LF)].
Proof.
  assert (HP2 : Permutation ["subdomains"; "osint"; "hosts"; "webs"] CATEGORIES)
    by apply perm_swap.
  assert (Hrun :
    fst (analyze_reconftw_results World.fs_sub format_plain World.echo
           CATEGORIES ["subdomains"; "osint"; "hosts"; "webs"]
           World.RESULTS_DIR World.MODEL "brief" World.no_catalog)
    = Ok World.report_sub) by reflexivity.
  destruct (report_sections_follow_completion_order
              World.fs_sub format_plain World.echo
              CATEGORIES ["subdomains"; "osint"; "hosts"; "webs"]
              World.RESULTS_DIR World.MODEL "brief" "./reconftw_ai_output"
              World.no_catalog World.NOW World.report_sub HP2 Hrun)
    as [_ Htxt].
  split; [exact HP2 |]. split; [exact Hrun |].
  rewrite Htxt. reflexivity.
Defined.

(** C8, as the claim states it, fails on the order of the category
    sections.  When the analysis of [subdomains] completes before that of
    [osint], the report lists SUBDOMAINS first, and the file written, in
    either format, is not the one with the sections in the declared
    order. *)
Lemma report_sections_not_in_declared_order :
  Permutation ["subdomains"; "osint"; "hosts"; "webs"] CATEGORIES /\
  exists results,
    fst (analyze_reconftw_results World.fs_sub format_plain World.echo
           CATEGORIES ["subdomains"; "osint"; "hosts"; "webs"]
           World.RESULTS_DIR World.MODEL "brief" World.no_catalog)
    = Ok results /\
    keys results = ["subdomains"; "osint"; "hosts"; "webs"; "overview"] /\
    keys (declared_order results)
    = ["osint"; "subdomains"; "hosts"; "webs"; "overview"] /\
    save_results World.NOW results "./reconftw_ai_output" World.MODEL "md"
      "brief"
    <> save_results World.NOW (declared_order results) "./reconftw_ai_output"
         World.MODEL "md" "brief" /\
    save_results World.NOW results "./reconftw_ai_output" World.MODEL "txt"
      "brief"
    <> save_results World.NOW (declared_order results) "./reconftw_ai_output"
         World.MODEL "txt" "brief".
Proof.
  split; [apply perm_swap |].
  eexists. split; [reflexivity |].
  split; [reflexivity |]. split; [reflexivity |].
  split; intros H; vm_compute in H; discriminate H.
Qed.

Section Timestamp.

Lemma all_chars_app (p : ascii -> bool) (a b : string) :
  all_chars p (a ++ b) = all_chars p a && all_chars p b.
Proof.
  induction a as [|c a IH]; simpl; [reflexivity |].
  now rewrite IH, andb_assoc.
Qed.

Lemma digit_spec (n : nat) :
  String.length (digit n) = 1 /\ all_chars is_digit_char (digit n) = true.
Proof.
  unfold digit.
  assert (H : n mod 10 < 10) by (apply Nat.mod_upper_bound; discriminate).
  revert H. generalize (n mod 10) as k. intros k H.
  do 10 (destruct k as [|k]; [split; reflexivity |]).
  exfalso. lia.
Qed.

Lemma pad2_spec (n : nat) :
  String.length (pad2 n) = 2 /\ all_chars is_digit_char (pad2 n) = true.
Proof.
  unfold pad2. rewrite length_app, all_chars_app.
  destruct (digit_spec (n / 10)) as [-> ->].
  destruct (digit_spec n) as [-> ->]. now split.
Qed.

Lemma pad4_spec (n : nat) :
  String.length (pad4 n) = 4 /\ all_chars is_digit_char (pad4 n) = true.
Proof.
  unfold pad4. rewrite !length_app, !all_chars_app.
  destruct (digit_spec (n / 1000)) as [-> ->].
  destruct (digit_spec (n / 100)) as [-> ->].
  destruct (pad2_spec n) as [-> ->]. now split.
Qed.

Lemma count_chars_app (p : ascii -> bool) (a b : string) :
  count_chars p (a ++ b) = count_chars p a + count_chars p b.
Proof.
  induction a as [|c a IH]; simpl; [reflexivity |].
  rewrite IH. lia.
Qed.

Lemma count_all_chars (p : ascii -> bool) (s : string) :
  all_chars p s = true -> count_chars p s = String.length s.
Proof.
  induction s as [|c s IH]; simpl; [reflexivity |].
  intros H. apply andb_true_iff in H as [-> Hs]. now rewrite IH.
Qed.

(** The timestamp is a date of eight digits, an underscore, and a time of
    six digits. *)
Lemma strftime_shape (now : datetime) :
  exists date time,
    String.length date = 8 /\ all_chars is_digit_char date = true /\
    String.length time = 6 /\ all_chars is_digit_char time = true /\
    strftime now = date ++ "_" ++ time.
Proof.
  exists (pad4 (year now) ++ pad2 (month now) ++ pad2 (day now)),
         (pad2 (hour now) ++ pad2 (minute now) ++ pad2 (second now)).
  rewrite !length_app, !all_chars_app.
  destruct (pad4_spec (year now)) as [-> ->].
  destruct (pad2_spec (month now)) as [-> ->].
  destruct (pad2_spec (day now)) as [-> ->].
  destruct (pad2_spec (hour now)) as [-> ->].
  destruct (pad2_spec (minute now)) as [-> ->].
  destruct (pad2_spec (second now)) as [-> ->].
  repeat split.
Qed.

End Timestamp.

(** C9.  For the report type [brief] and the format [md], [save_results]
    creates the output directory and writes one file, named
    [reconftw_analysis_brief_<timestamp>.md] under it.  The timestamp holds
    fourteen digits: the eight of the date and the six of the time, which
    [strftime] parts with an underscore.  The body opens with the level-1
    heading "# ReconFTW-AI Analysis (Gemini)", which names the tool,
    ReconFTW-AI, and the model, Gemini. *)
Theorem save_results_brief_md
  (now : datetime) (results : dict string) (output_dir model_name : string) :
  exists timestamp date time rest,
    timestamp = date ++ "_" ++ time /\
    String.length date = 8 /\ all_chars is_digit_char date = true /\
    String.length time = 6 /\ all_chars is_digit_char time = true /\
    count_chars is_digit_char timestamp = 14 /\
    save_results now results output_dir model_name "md" "brief"
    = (Ok tt,
       [MakeDirs output_dir;
        WriteFile
          (path_join output_dir
             ("reconftw_analysis_brief_" ++ timestamp ++ ".md"))
          ("# ReconFTW-AI Analysis (Gemini)" ++ LF ++ rest)]).
Proof.
  destruct (strftime_shape now) as (date & time & Hd & Hdd & Ht & Htd & E).
  exists (strftime now), date, time.
  remember (strftime now) as timestamp eqn:Hts.
  eexists.
  split; [exact E |].
  repeat (split; [eassumption |]).
  split.
  - rewrite E, !count_chars_app.
    rewrite (count_all_chars _ date Hdd), (count_all_chars _ time Htd), Hd, Ht.
    reflexivity.
  - unfold save_results. rewrite <- Hts.
    unfold report_body, md_header, bind, emit. simpl.
    rewrite !app_assoc_s. simpl. reflexivity.
Qed.

(** The file of a concrete run, at 22:16:00 on 2026-11-04. *)
Example save_results_brief_md_example :
  exists body,
    save_results World.NOW [] "./reconftw_ai_output" World.MODEL "md" "brief"
    = (Ok tt,
       [MakeDirs "./reconftw_ai_output";
        WriteFile
          "./reconftw_ai_output/reconftw_analysis_brief_20261104_221600.md"
          ("# ReconFTW-AI Analysis (Gemini)" ++ LF ++ body)]).
Proof. eexists. reflexivity. Qed.

(* ================================================================== *)
(** * More on the ingestor *)

Section Trimming.

Lemma rstrip_idempotent (s : string) : rstrip (rstrip s) = rstrip s.
Proof.
  induction s as [|c s IH]; simpl; [reflexivity |].
  destruct (isspace c && is_empty (rstrip s)) eqn:E; [reflexivity |].
  simpl. now rewrite IH, E.
Qed.

Lemma lstrip_clean_head (s : string) : clean_head (lstrip s).
Proof.
  induction s as [|c s IH]; simpl; [exact I |].
  destruct (isspace c) eqn:E; [exact IH | exact E].
Qed.

Lemma rstrip_clean_head (s : string) : clean_head s -> clean_head (rstrip s).
Proof.
  destruct s as [|c s]; simpl; [trivial |].
  intros Hc. rewrite Hc. exact Hc.
Qed.

(** Trimming twice is trimming once. *)
Lemma strip_idempotent (s : string) : strip (strip s) = strip s.
Proof.
  unfold strip.
  rewrite (clean_head_lstrip (rstrip (lstrip s)))
    by apply rstrip_clean_head, lstrip_clean_head.
  apply rstrip_idempotent.
Qed.

(** A text between two characters that [strip] keeps is trimmed. *)
Lemma trimmed_between (a mid b : string) :
  clean_head a -> a <> "" -> rstrip b = b -> b <> "" ->
  trimmed (a ++ mid ++ b).
Proof.
  intros Ha Hane Hb Hbne. unfold trimmed, strip.
  rewrite clean_head_lstrip.
  - rewrite <- app_assoc_s.
    rewrite rstrip_app_keep by (rewrite Hb; exact Hbne).
    now rewrite Hb.
  - destruct a; [congruence | exact Ha].
Qed.

End Trimming.

(** X1.  Whatever the filesystem holds, the text [read_files] returns is
    never empty and has no blank at either end: the emptiness test of
    [process_category] never fires on ingested data. *)
Theorem read_files_text_nonempty_trimmed
  (fs : FileSystem) (category results_dir : string) :
  exists out,
    fst (read_files fs category results_dir) = Ok out /\
    out <> "" /\ strip out = out.
Proof.
  exists (ingested fs category results_dir).
  rewrite read_files_closed_form. split; [reflexivity |].
  unfold ingested.
  destruct (fs_isdir fs (path_join results_dir category)).
  - destruct (is_empty _) eqn:Hempty.
    + split; [discriminate |].
      apply (trimmed_between "[Info] No files found in " _ ".");
        [reflexivity | discriminate | reflexivity | discriminate].
    + split; [| apply strip_idempotent].
      unfold strip. rewrite clean_head_lstrip by apply blocks_clean_head.
      apply clean_head_rstrip; [apply blocks_clean_head |].
      intros E. rewrite E in Hempty. discriminate.
  - split; [discriminate |].
    apply (trimmed_between "[Error] Directory " _ " does not exist.");
      [reflexivity | discriminate | reflexivity | discriminate].
Qed.

Section EmptyCategory.

Variable fs : FileSystem.
Variable results_dir : string.

Lemma blocks_without_files (paths : list string) :
  (forall p, In p paths -> fs_isfile fs p = false) ->
  concat_all (map (block fs results_dir) paths) = "".
Proof.
  induction paths as [|p paths IH]; intros H; simpl; [reflexivity |].
  unfold block at 1. rewrite (H p (or_introl eq_refl)). simpl.
  apply IH. intros q Hq. apply H. now right.
Qed.

Lemma block_opening (p : string) :
  block fs results_dir p = "" \/
  (exists s, block fs results_dir p = String "-" s) \/
  (exists s, block fs results_dir p = String "[" (String "E" s)).
Proof.
  unfold block. destruct (fs_isfile fs p); [| now left].
  destruct (fs_read fs p); simpl.
  - right. left. eexists. reflexivity.
  - right. right. eexists. reflexivity.
Qed.

(** The accumulator opens like a block: with a dash or with "[E". *)
Lemma blocks_opening (paths : list string) :
  concat_all (map (block fs results_dir) paths) = "" \/
  (exists s, concat_all (map (block fs results_dir) paths) = String "-" s) \/
  (exists s,
     concat_all (map (block fs results_dir) paths) = String "[" (String "E" s)).
Proof.
  induction paths as [|p paths IH]; simpl; [now left |].
  destruct (block_opening p) as [E | [[s E] | [s E]]]; rewrite E; simpl.
  - exact IH.
  - right. left. eexists. reflexivity.
  - right. right. eexists. reflexivity.
Qed.

Lemma opened_paths_app (t1 t2 : list event) :
  opened_paths (t1 ++ t2) = (opened_paths t1 ++ opened_paths t2)%list.
Proof.
  induction t1 as [|ev t1 IH]; simpl; [reflexivity |].
  destruct ev; simpl; now rewrite IH.
Qed.

Lemma opened_paths_blocks (paths : list string) :
  opened_paths (flat_map (block_events fs) paths) = filter (fs_isfile fs) paths.
Proof.
  induction paths as [|p paths IH]; simpl; [reflexivity |].
  rewrite opened_paths_app, IH. unfold block_events.
  destruct (fs_isfile fs p); reflexivity.
Qed.

End EmptyCategory.

(** X2.  On an existing category directory, [read_files] returns the
    sentinel "[Info] No files found in <dir>." exactly when none of the
    enumerated paths is a regular file (the directory is empty, or holds
    only directories). *)
Theorem read_files_info_iff_no_regular_file
  (fs : FileSystem) (category results_dir : string) :
  fs_isdir fs (path_join results_dir category) = true ->
  (fst (read_files fs category results_dir)
   = Ok ("[Info] No files found in " ++ path_join results_dir category ++ ".")
   <->
   forall p, In p (listing fs category results_dir) -> fs_isfile fs p = false).
Proof.
  intros Hdir. rewrite read_files_closed_form. simpl.
  unfold ingested. rewrite Hdir. split.
  - intros Hout p Hin.
    destruct (fs_isfile fs p) eqn:Hfile; [exfalso | reflexivity].
    destruct (strip_keeps_block fs results_dir _ p Hin Hfile) as [Hne _].
    unfold listing in *. rewrite Hne in Hout.
    injection Hout as Hout. unfold strip in Hout.
    rewrite clean_head_lstrip in Hout by apply blocks_clean_head.
    destruct (blocks_opening fs results_dir
                (fs_glob fs (path_join (path_join results_dir category) "**/*")))
      as [E | [[s E] | [s E]]]; rewrite E in Hout, Hne.
    + discriminate Hne.
    + rewrite rstrip_head in Hout by reflexivity. discriminate Hout.
    + rewrite rstrip_head in Hout by reflexivity.
      rewrite rstrip_head in Hout by reflexivity. discriminate Hout.
  - intros Hnone. unfold listing in *.
    now rewrite (blocks_without_files fs results_dir _ Hnone).
Qed.

Lemma read_files_info_iff_no_regular_file_witness :
  fs_isdir World.fs_empty (path_join World.RESULTS_DIR "osint") = true /\
  (fst (read_files World.fs_empty "osint" World.RESULTS_DIR)
   = Ok ("[Info] No files found in " ++ path_join World.RESULTS_DIR "osint"
         ++ ".")
   <->
   forall p, In p (listing World.fs_empty "osint" World.RESULTS_DIR) ->
             fs_isfile World.fs_empty p = false).
Proof.
  split; [reflexivity |].
  apply (read_files_info_iff_no_regular_file
           World.fs_empty "osint" World.RESULTS_DIR).
  reflexivity.
Defined.

(** X3.  [read_files] opens the enumerated paths that are regular files,
    each once and in enumeration order, and nothing else; when the
    category directory is absent it opens nothing. *)
Theorem read_files_opens_only_regular_files
  (fs : FileSystem) (category results_dir : string) :
  opened_paths (snd (read_files fs category results_dir))
  = if fs_isdir fs (path_join results_dir category)
    then filter (fs_isfile fs) (listing fs category results_dir)
    else [].
Proof.
  rewrite read_files_closed_form. simpl.
  destruct (fs_isdir fs (path_join results_dir category)); [| reflexivity].
  simpl. apply opened_paths_blocks.
Qed.

(* ================================================================== *)
(** * More on the analysis client *)

(** X4.  [process_category] never calls the service more than once: it
    calls it exactly once when the data is valid and the prompt composes,
    whether the call then succeeds or fails (no retry), and not at all
    otherwise. *)
Theorem process_category_calls_at_most_once
  (str_format : string -> string -> result string) (client : Client)
  (category data model_name report_type : string) (base_prompts : json) :
  service_calls
    (snd (process_category str_format client category data model_name
            report_type base_prompts))
  = (if is_empty data || contains "[Error]" data then 0
     else match fst (prompt str_format base_prompts report_type category data)
          with
          | Ok _ => 1
          | Raise _ => 0
          end) /\
  service_calls
    (snd (process_category str_format client category data model_name
            report_type base_prompts)) <= 1.
Proof.
  destruct (is_empty data || contains "[Error]" data) eqn:Hvalid.
  - rewrite process_category_invalid by exact Hvalid. simpl. split; lia.
  - destruct (fst (prompt str_format base_prompts report_type category data))
      as [contents | e] eqn:Hprompt.
    + rewrite (process_category_valid _ _ _ _ _ _ contents _ Hvalid Hprompt).
      simpl. split; lia.
    + rewrite (process_category_propagates _ _ _ _ _ _ _ e Hvalid Hprompt).
      simpl. split; lia.
Qed.

(** X5.  A catalog that has no entry for the report type, or whose entry
    for the report type has none for the category, falls back to the
    built-in template: [process_category] behaves as with the empty
    catalog, and the prompt is [DEFAULT_TEMPLATE] with the data
    substituted. *)
Theorem process_category_default_template
  (str_format : string -> string -> result string) (client : Client)
  (category data model_name report_type : string) (members : dict json) :
  (dict_get members report_type = None \/
   exists inner,
     dict_get members report_type = Some (JObject inner) /\
     dict_get inner category = None) ->
  prompt str_format (JObject members) report_type category data
  = (str_format DEFAULT_TEMPLATE data, []) /\
  process_category str_format client category data model_name report_type
    (JObject members)
  = process_category str_format client category data model_name report_type
      (JObject []).
Proof.
  intros H.
  assert (Hprompt :
    prompt str_format (JObject members) report_type category data
    = (str_format DEFAULT_TEMPLATE data, [])).
  { unfold prompt, prompt_template, json_get, format_template, bind, ret, lift.
    destruct H as [-> | (inner & -> & ->)]; simpl;
      destruct (str_format DEFAULT_TEMPLATE data); reflexivity. }
  split; [exact Hprompt |].
  unfold process_category. rewrite Hprompt.
  destruct (is_empty data || contains "[Error]" data); [reflexivity |].
  unfold prompt, prompt_template, json_get, format_template, bind, ret, lift.
  simpl. destruct (str_format DEFAULT_TEMPLATE data); reflexivity.
Qed.

Lemma process_category_default_template_witness :
  (dict_get [("executive", JObject [("osint", JString "Targets: {target}")])]
     "brief" = None \/
   exists inner,
     dict_get [("executive", JObject [("osint", JString "Targets: {target}")])]
       "brief" = Some (JObject inner) /\
     dict_get inner "hosts" = None) /\
  prompt format_plain World.catalog_target "brief" "hosts" "10.0.0.1"
  = (format_plain DEFAULT_TEMPLATE "10.0.0.1", []) /\
  process_category format_plain World.echo "hosts" "10.0.0.1" World.MODEL
    "brief" World.catalog_target
  = process_category format_plain World.echo "hosts" "10.0.0.1" World.MODEL
      "brief" (JObject []).
Proof.
  split; [left; reflexivity |].
  apply (process_category_default_template format_plain World.echo "hosts"
           "10.0.0.1" World.MODEL "brief"
           [("executive", JObject [("osint", JString "Targets: {target}")])]).
  left. reflexivity.
Defined.

(** X6.  A catalog of the wrong shape is not detected when it is loaded but
    when it is used: on valid data, a catalog that is not an object, an
    entry for the report type that is not an object, or a template that is
    not a string, makes [process_category] raise [AttributeError] without
    calling the service. *)
Theorem process_category_ill_shaped_catalog
  (str_format : string -> string -> result string) (client : Client)
  (category data model_name report_type : string) (base_prompts : json) :
  is_empty data || contains "[Error]" data = false ->
  (match base_prompts with
   | JObject members =>
       match dict_get members report_type with
       | Some (JObject inner) =>
           match dict_get inner category with
           | Some (JString _) | None => False
           | Some _ => True
           end
       | Some _ => True
       | None => False
       end
   | _ => True
   end) ->
  exists e,
    exn_class e = "AttributeError" /\
    process_category str_format client category data model_name report_type
      base_prompts
    = (Raise e, []).
Proof.
  intros Hvalid Hshape.
  assert (H : exists e, exn_class e = "AttributeError" /\
                        fst (prompt str_format base_prompts report_type
                               category data) = Raise e).
  { unfold prompt, prompt_template, json_get, format_template, bind, ret,
      raise, lift, no_attribute.
    destruct base_prompts as [| | | | | |members];
      try (eexists; split; [| reflexivity]; reflexivity).
    destruct (dict_get members report_type) as [variant |]; [| contradiction].
    destruct variant as [| | | | | |inner];
      try (eexists; split; [| reflexivity]; reflexivity).
    destruct (dict_get inner category) as [template |]; [| contradiction].
    destruct template; try contradiction;
      eexists; (split; [| reflexivity]); reflexivity. }
  destruct H as (e & Hclass & Hprompt).
  exists e. split; [exact Hclass |].
  now apply process_category_propagates.
Qed.

Lemma process_category_ill_shaped_catalog_witness :
  is_empty "10.0.0.1" || contains "[Error]" "10.0.0.1" = false /\
  exists e,
    exn_class e = "AttributeError" /\
    process_category format_plain World.echo "hosts" "10.0.0.1" World.MODEL
      "brief" (JArray [JString "Analyze: {data}"])
    = (Raise e, []).
Proof.
  split; [reflexivity |].
  apply (process_category_ill_shaped_catalog format_plain World.echo "hosts"
           "10.0.0.1" World.MODEL "brief" (JArray [JString "Analyze: {data}"]));
    [reflexivity | exact I].
Defined.

(* ================================================================== *)
(** * More on the orchestrator *)

Section Lookup.

Lemma dict_get_set_same {V} (d : dict V) (k : string) (v : V) :
  dict_get (dict_set d k v) k = Some v.
Proof.
  induction d as [|[k' v'] d IH]; simpl.
  - now rewrite String.eqb_refl.
  - destruct (String.eqb k k') eqn:E; simpl; rewrite ?String.eqb_refl, ?E;
      [reflexivity | exact IH].
Qed.

Lemma dict_get_set_other {V} (d : dict V) (k k' : string) (v : V) :
  k' <> k -> dict_get (dict_set d k v) k' = dict_get d k'.
Proof.
  intros Hne. induction d as [|[k0 v0] d IH]; simpl.
  - now apply String.eqb_neq in Hne as ->.
  - destruct (String.eqb_spec k k0) as [-> | Hk]; simpl.
    + now apply String.eqb_neq in Hne as ->.
    + now rewrite IH.
Qed.

(** A pool that returns has stored, under each category, what that
    category's task returned, and has left the other keys alone. *)
Lemma gather_lookup (task : string -> M string) (done : list string) :
  NoDup done ->
  forall d r,
    fst (gather task done d) = Ok r ->
    (forall cat, In cat done ->
       exists v, fst (task cat) = Ok v /\ dict_get r cat = Some v) /\
    (forall k, ~ In k done -> dict_get r k = dict_get d k).
Proof.
  induction done as [|cat rest IH]; intros Hnd d r; simpl.
  - intros H. injection H as <-. split; [intros ? [] | reflexivity].
  - inversion Hnd as [| ? ? Hnotin Hnd']; subst.
    destruct (task cat) as [[v | e] t] eqn:Etask; [| discriminate].
    specialize (IH Hnd' (dict_set d cat v) r).
    destruct (gather task rest (dict_set d cat v)) as [r' t'].
    simpl. intros H. destruct (IH H) as [IHin IHout]. split.
    + intros c [<- | Hc].
      * exists v. split; [now rewrite Etask |].
        rewrite (IHout cat Hnotin). apply dict_get_set_same.
      * exact (IHin c Hc).
    + intros k Hk. rewrite IHout by tauto.
      apply dict_get_set_other. intros ->. apply Hk. now left.
Qed.

(** Every task of a pool runs, whether or not the pool returns. *)
Lemma gather_events (task : string -> M string) (done : list string) :
  forall d, snd (gather task done d) = flat_map (fun c => snd (task c)) done.
Proof.
  induction done as [|cat rest IH]; intros d; simpl; [reflexivity |].
  destruct (task cat) as [[v | e] t]; simpl; [| reflexivity].
  specialize (IH (dict_set d cat v)).
  destruct (gather task rest (dict_set d cat v)) as [r t'].
  simpl in *. now rewrite IH.
Qed.

Lemma snd_bind {A B} (m : M A) (k : A -> M B) :
  snd (bind m k)
  = match fst m with
    | Ok a => (snd m ++ snd (k a))%list
    | Raise _ => snd m
    end.
Proof.
  destruct m as [[a | e] t]; simpl; [| reflexivity]. now destruct (k a).
Qed.

Lemma service_calls_app (t1 t2 : list event) :
  service_calls (t1 ++ t2) = service_calls t1 + service_calls t2.
Proof.
  induction t1 as [|ev t1 IH]; simpl; [reflexivity |].
  destruct ev; simpl; now rewrite IH.
Qed.

Lemma service_calls_flat_map (f : string -> list event) (l : list string) :
  (forall c, service_calls (f c) <= 1) ->
  service_calls (flat_map f l) <= List.length l.
Proof.
  intros H. induction l as [|c l IH]; simpl; [lia |].
  rewrite service_calls_app. specialize (H c). lia.
Qed.

Lemma service_calls_flat_map_zero (f : string -> list event) (l : list string) :
  (forall c, In c l -> service_calls (f c) = 0) ->
  service_calls (flat_map f l) = 0.
Proof.
  induction l as [|c l IH]; simpl; intros H; [reflexivity |].
  rewrite service_calls_app, (H c (or_introl eq_refl)), IH; [reflexivity |].
  intros c' Hc'. apply H. now right.
Qed.

Lemma service_calls_block_events (fs : FileSystem) (paths : list string) :
  service_calls (flat_map (block_events fs) paths) = 0.
Proof.
  apply service_calls_flat_map_zero. intros p _. unfold block_events.
  destruct (fs_isfile fs p); reflexivity.
Qed.

(** Reading files calls no service. *)
Lemma service_calls_read_files (fs : FileSystem) (category results_dir : string) :
  service_calls (snd (read_files fs category results_dir)) = 0.
Proof.
  rewrite read_files_closed_form. simpl.
  destruct (fs_isdir fs (path_join results_dir category)); [| reflexivity].
  simpl. apply service_calls_block_events.
Qed.

Lemma Substring_join (sep x : string) (parts : list string) (part : string) :
  In part parts -> Substring x part -> Substring x (join sep parts).
Proof.
  intros Hin Hx. induction parts as [|y parts IH]; [contradiction |].
  destruct parts as [|z parts'].
  - destruct Hin as [-> | []]. exact Hx.
  - change (join sep (y :: z :: parts'))
      with (y ++ sep ++ join sep (z :: parts')).
    destruct Hin as [-> | Hin]; [now apply Substring_app_l |].
    apply Substring_app_r, Substring_app_r, IH, Hin.
Qed.

End Lookup.

Section Runs.

Variable fs : FileSystem.
Variable str_format : string -> string -> result string.
Variable client : Client.
Variables results_dir model_name report_type : string.
Variable base_prompts : json.

Local Abbreviation analysis_task :=
  (analysis_of str_format client model_name report_type base_prompts).
Local Abbreviation raw_of := (raw_data_of fs results_dir).

Lemma process_category_calls_le (category data : string) :
  service_calls
    (snd (process_category str_format client category data model_name
            report_type base_prompts)) <= 1.
Proof.
  destruct (is_empty data || contains "[Error]" data) eqn:Hvalid.
  - rewrite process_category_invalid by exact Hvalid. simpl. lia.
  - destruct (fst (prompt str_format base_prompts report_type category data))
      as [contents | e] eqn:Hprompt.
    + rewrite (process_category_valid _ _ _ _ _ _ contents _ Hvalid Hprompt).
      simpl. lia.
    + rewrite (process_category_propagates _ _ _ _ _ _ _ e Hvalid Hprompt).
      simpl. lia.
Qed.

Lemma analysis_task_known (done1 : list string) (cat : string) :
  In cat done1 ->
  analysis_task (raw_of done1) cat
  = process_category str_format client cat (ingested fs cat results_dir)
      model_name report_type base_prompts.
Proof.
  intros Hin. unfold analysis_of, raw_data_of, subscript.
  rewrite (dict_get_map (fun c => ingested fs c results_dir) done1 cat Hin).
  unfold bind, ret.
  destruct (process_category _ _ _ _ _ _ _) as [r t]. reflexivity.
Qed.

Lemma analysis_task_calls_le (raw : dict string) (cat : string) :
  service_calls (snd (analysis_task raw cat)) <= 1.
Proof.
  unfold analysis_of, subscript.
  destruct (dict_get raw cat) as [v |].
  - unfold bind, ret.
    pose proof (process_category_calls_le cat v) as H.
    destruct (process_category _ _ _ _ _ _ _) as [r t]. exact H.
  - simpl. lia.
Qed.

(** The run, with step 1 resolved. *)
Lemma analyze_after_ingestion (done1 done2 : list string) :
  NoDup done1 ->
  exists t1,
    service_calls t1 = 0 /\
    analyze_reconftw_results fs str_format client done1 done2 results_dir
      model_name report_type base_prompts
    = bind (Ok (raw_of done1), t1)
        (fun raw =>
           results <- gather (analysis_task raw) done2 [] ;;
           overview <- process_category str_format client "overview"
                         (all_data raw) model_name report_type base_prompts ;;
           ret (dict_set results "overview" overview)).
Proof.
  intros Hnd.
  exists (snd (raw_data_per_category fs done1 results_dir)). split.
  - unfold raw_data_per_category. rewrite gather_events.
    apply service_calls_flat_map_zero. intros c _.
    apply service_calls_read_files.
  - unfold analyze_reconftw_results.
    pose proof (raw_data_closed_form fs done1 results_dir Hnd) as Hraw.
    destruct (raw_data_per_category fs done1 results_dir) as [r t].
    simpl in *. subst r. reflexivity.
Qed.

Lemma analyze_inversion (done1 done2 : list string) (results : dict string) :
  NoDup done1 ->
  fst (analyze_reconftw_results fs str_format client done1 done2 results_dir
         model_name report_type base_prompts) = Ok results ->
  exists results0 overview,
    fst (gather (analysis_task (raw_of done1)) done2 []) = Ok results0 /\
    fst (process_category str_format client "overview"
           (all_data (raw_of done1)) model_name report_type base_prompts)
    = Ok overview /\
    results = dict_set results0 "overview" overview.
Proof.
  intros Hnd Hrun.
  destruct (analyze_after_ingestion done1 done2 Hnd) as (t1 & _ & E).
  rewrite E in Hrun.
  apply fst_bind_inv in Hrun as (raw & Hraw & Hrun).
  simpl in Hraw. injection Hraw as <-.
  apply fst_bind_inv in Hrun as (results0 & Hgather & Hrun).
  apply fst_bind_inv in Hrun as (overview & Hov & Hrun).
  simpl in Hrun. injection Hrun as <-.
  now exists results0, overview.
Qed.

Lemma marker_in_all_data (done1 : list string) (cat : string) :
  In cat done1 ->
  Substring "[Error]" (ingested fs cat results_dir) ->
  Substring "[Error]" (all_data (raw_of done1)).
Proof.
  intros Hin Hsub. unfold raw_data_of. rewrite all_data_closed_form.
  apply (Substring_join _ _ _
           (upper cat ++ ":" ++ LF ++ ingested fs cat results_dir)).
  - apply (in_map (fun c => upper c ++ ":" ++ LF ++ ingested fs c results_dir)).
    exact Hin.
  - now apply Substring_app_r, Substring_app_r, Substring_app_r.
Qed.

Lemma absent_directory_marker (cat : string) :
  fs_isdir fs (path_join results_dir cat) = false ->
  Substring "[Error]" (ingested fs cat results_dir).
Proof.
  intros Hdir. unfold ingested. rewrite Hdir.
  eexists "", _. simpl. reflexivity.
Qed.

End Runs.

(** X7.  In a report the run returns, the section of every category is
    the analysis of that category's own raw data, as [read_files] returned
    it, whatever the orders in which the reads and the analyses
    completed. *)
Theorem report_sections_are_own_analyses
  (fs : FileSystem) (str_format : string -> string -> result string)
  (client : Client) (done1 done2 : list string)
  (results_dir model_name report_type : string) (base_prompts : json)
  (results : dict string) :
  Permutation done1 CATEGORIES ->
  Permutation done2 CATEGORIES ->
  fst (analyze_reconftw_results fs str_format client done1 done2 results_dir
         model_name report_type base_prompts) = Ok results ->
  forall cat raw,
    In cat CATEGORIES ->
    fst (read_files fs cat results_dir) = Ok raw ->
    exists text,
      fst (process_category str_format client cat raw model_name report_type
             base_prompts) = Ok text /\
      dict_get results cat = Some text.
Proof.
  intros HP1 HP2 Hrun cat raw Hcat Hraw.
  destruct (completion_order done1 HP1) as (Hnd1 & _ & Hin1 & _).
  destruct (completion_order done2 HP2) as (Hnd2 & Hov & Hin2 & _).
  destruct (analyze_inversion _ _ _ _ _ _ _ _ _ _ Hnd1 Hrun)
    as (results0 & overview & Hgather & _ & ->).
  destruct (gather_lookup _ _ Hnd2 _ _ Hgather) as [Hstored _].
  destruct (Hstored cat (proj1 (Hin2 cat) Hcat)) as (text & Htask & Hget).
  rewrite analysis_task_known in Htask by now apply Hin1.
  rewrite read_files_closed_form in Hraw. simpl in Hraw.
  injection Hraw as <-.
  exists text. split; [exact Htask |].
  rewrite dict_get_set_other; [exact Hget |].
  intros ->. apply Hov. now apply Hin2.
Qed.

Lemma report_sections_are_own_analyses_witness :
  Permutation ["subdomains"; "osint"; "hosts"; "webs"] CATEGORIES /\
  fst (analyze_reconftw_results World.fs_sub format_plain World.echo
         CATEGORIES ["subdomains"; "osint"; "hosts"; "webs"]
         World.RESULTS_DIR World.MODEL "brief" World.no_catalog)
  = Ok World.report_sub /\
  forall cat raw,
    In cat CATEGORIES ->
    fst (read_files World.fs_sub cat World.RESULTS_DIR) = Ok raw ->
    exists text,
      fst (process_category format_plain World.echo cat raw World.MODEL
             "brief" World.no_catalog) = Ok text /\
      dict_get World.report_sub cat = Some text.
Proof.
  assert (HP2 : Permutation ["subdomains"; "osint"; "hosts"; "webs"] CATEGORIES)
    by apply perm_swap.
  assert (Hrun :
    fst (analyze_reconftw_results World.fs_sub format_plain World.echo
           CATEGORIES ["subdomains"; "osint"; "hosts"; "webs"]
           World.RESULTS_DIR World.MODEL "brief" World.no_catalog)
    = Ok World.report_sub) by reflexivity.
  split; [exact HP2 |]. split; [exact Hrun |].
  apply (report_sections_are_own_analyses World.fs_sub format_plain World.echo
           CATEGORIES ["subdomains"; "osint"; "hosts"; "webs"]
           World.RESULTS_DIR World.MODEL "brief" World.no_catalog
           World.report_sub (Permutation_refl _) HP2 Hrun).
Defined.

(** X8.  One failed category silences the overview.  When a category
    directory is absent, or a file of a category fails to read, the raw
    data of that category carries the "[Error]" marker into the combined
    text, and the [overview] section of the report is
    "[Error] No valid data available for overview.", whatever the other
    categories hold. *)
Theorem overview_lost_when_a_category_fails
  (fs : FileSystem) (str_format : string -> string -> result string)
  (client : Client) (done1 done2 : list string)
  (results_dir model_name report_type : string) (base_prompts : json)
  (results : dict string) (cat : string) :
  Permutation done1 CATEGORIES ->
  In cat CATEGORIES ->
  (fs_isdir fs (path_join results_dir cat) = false \/
   exists p e,
     fs_isdir fs (path_join results_dir cat) = true /\
     In p (listing fs cat results_dir) /\
     fs_isfile fs p = true /\ fs_read fs p = Raise e) ->
  fst (analyze_reconftw_results fs str_format client done1 done2 results_dir
         model_name report_type base_prompts) = Ok results ->
  dict_get results "overview"
  = Some "[Error] No valid data available for overview.".
Proof.
  intros HP1 Hcat Hfail Hrun.
  destruct (completion_order done1 HP1) as (Hnd1 & _ & Hin1 & _).
  destruct (analyze_inversion _ _ _ _ _ _ _ _ _ _ Hnd1 Hrun)
    as (results0 & overview & _ & Hov & ->).
  rewrite dict_get_set_same. f_equal.
  assert (Hmark : Substring "[Error]" (ingested fs cat results_dir)).
  { destruct Hfail as [Hdir | (p & e & Hdir & Hin & Hfile & Hread)].
    - now apply absent_directory_marker.
    - apply (marker_in_ingested fs cat results_dir p Hdir Hin Hfile).
      now rewrite Hread. }
  apply (marker_in_all_data fs results_dir done1 cat (proj1 (Hin1 cat) Hcat))
    in Hmark.
  apply contains_spec in Hmark.
  rewrite process_category_invalid in Hov
    by (rewrite Hmark; apply orb_true_r).
  simpl in Hov. now injection Hov as <-.
Qed.

Lemma overview_lost_when_a_category_fails_witness :
  Permutation CATEGORIES CATEGORIES /\
  In "hosts" CATEGORIES /\
  fs_isdir World.fs_sub (path_join World.RESULTS_DIR "hosts") = false /\
  fst (analyze_reconftw_results World.fs_sub format_plain World.echo
         CATEGORIES ["subdomains"; "osint"; "hosts"; "webs"]
         World.RESULTS_DIR World.MODEL "brief" World.no_catalog)
  = Ok World.report_sub /\
  dict_get World.report_sub "overview"
  = Some "[Error] No valid data available for overview.".
Proof.
  assert (Hcat : In "hosts" CATEGORIES) by (simpl; tauto).
  assert (Hrun :
    fst (analyze_reconftw_results World.fs_sub format_plain World.echo
           CATEGORIES ["subdomains"; "osint"; "hosts"; "webs"]
           World.RESULTS_DIR World.MODEL "brief" World.no_catalog)
    = Ok World.report_sub) by reflexivity.
  split; [apply Permutation_refl |]. split; [exact Hcat |].
  split; [reflexivity |]. split; [exact Hrun |].
  apply (overview_lost_when_a_category_fails World.fs_sub format_plain
           World.echo CATEGORIES ["subdomains"; "osint"; "hosts"; "webs"]
           World.RESULTS_DIR World.MODEL "brief" World.no_catalog
           World.report_sub "hosts" (Permutation_refl _) Hcat
           (or_introl eq_refl) Hrun).
Defined.

(** X9.  A run calls the generation service at most once per category and
    once for the overview, [|CATEGORIES| + 1] times in all, whether it
    returns or raises; reading the results tree calls it never. *)
Theorem analyze_calls_at_most_five
  (fs : FileSystem) (str_format : string -> string -> result string)
  (client : Client) (done1 done2 : list string)
  (results_dir model_name report_type : string) (base_prompts : json) :
  Permutation done1 CATEGORIES ->
  Permutation done2 CATEGORIES ->
  service_calls
    (snd (analyze_reconftw_results fs str_format client done1 done2
            results_dir model_name report_type base_prompts))
  <= List.length CATEGORIES + 1.
Proof.
  intros HP1 HP2.
  destruct (completion_order done1 HP1) as (Hnd1 & _).
  destruct (completion_order done2 HP2) as (_ & _ & _ & Hlen).
  destruct (analyze_after_ingestion fs str_format client results_dir
              model_name report_type base_prompts done1 done2 Hnd1)
    as (t1 & Ht1 & ->).
  rewrite snd_bind. simpl fst. cbv iota. simpl snd.
  rewrite service_calls_app, Ht1, snd_bind, gather_events.
  pose proof (service_calls_flat_map
                (fun c => snd (analysis_of str_format client model_name
                                 report_type base_prompts
                                 (raw_data_of fs results_dir done1) c))
                done2
                (analysis_task_calls_le str_format client model_name
                   report_type base_prompts _)) as Hpool.
  rewrite Hlen in Hpool.
  change (List.length CATEGORIES) with 4 in *.
  destruct (fst (gather _ done2 [])) as [results0 | e]; [| simpl; lia].
  rewrite service_calls_app, snd_bind.
  pose proof (process_category_calls_le str_format client model_name
                report_type base_prompts "overview"
                (all_data (raw_data_of fs results_dir done1))) as Hov.
  destruct (fst (process_category _ _ "overview" _ _ _ _)) as [ov | e].
  - rewrite service_calls_app. simpl service_calls at 3. simpl. lia.
  - simpl. lia.
Qed.

Lemma analyze_calls_at_most_five_witness :
  Permutation ["subdomains"; "osint"; "hosts"; "webs"] CATEGORIES /\
  Permutation ["osint"; "subdomains"; "webs"; "hosts"] CATEGORIES /\
  service_calls
    (snd (analyze_reconftw_results World.fs_ab format_plain World.exhausted
            ["subdomains"; "osint"; "hosts"; "webs"]
            ["osint"; "subdomains"; "webs"; "hosts"]
            World.RESULTS_DIR World.MODEL "executive" World.no_catalog))
  <= List.length CATEGORIES + 1.
Proof.
  assert (HP1 : Permutation ["subdomains"; "osint"; "hosts"; "webs"] CATEGORIES)
    by apply perm_swap.
  assert (HP2 : Permutation ["osint"; "subdomains"; "webs"; "hosts"] CATEGORIES)
    by (do 2 apply perm_skip; apply perm_swap).
  split; [exact HP1 |]. split; [exact HP2 |].
  apply (analyze_calls_at_most_five World.fs_ab format_plain World.exhausted
           _ _ World.RESULTS_DIR World.MODEL "executive" World.no_catalog
           HP1 HP2).
Defined.

(** X10.  On a results directory that holds none of the category
    directories the run returns a report of five error sections, each
    "[Error] No valid data available for <name>.", and calls the
    generation service not once. *)
Theorem analyze_absent_results_tree
  (fs : FileSystem) (str_format : string -> string -> result string)
  (client : Client) (done1 done2 : list string)
  (results_dir model_name report_type : string) (base_prompts : json) :
  Permutation done1 CATEGORIES ->
  Permutation done2 CATEGORIES ->
  (forall cat, In cat CATEGORIES ->
     fs_isdir fs (path_join results_dir cat) = false) ->
  fst (analyze_reconftw_results fs str_format client done1 done2 results_dir
         model_name report_type base_prompts)
  = Ok (map (fun name =>
               (name, "[Error] No valid data available for " ++ name ++ "."))
            (done2 ++ ["overview"])%list) /\
  service_calls
    (snd (analyze_reconftw_results fs str_format client done1 done2
            results_dir model_name report_type base_prompts)) = 0.
Proof.
  intros HP1 HP2 Habsent.
  destruct (completion_order done1 HP1) as (Hnd1 & _ & Hin1 & _).
  destruct (completion_order done2 HP2) as (Hnd2 & Hov & Hin2 & _).
  set (sentinel := fun name =>
         "[Error] No valid data available for " ++ name ++ ".").
  assert (Htask : forall cat, In cat done2 ->
            analysis_of str_format client model_name report_type base_prompts
              (raw_data_of fs results_dir done1) cat
            = (Ok (sentinel cat), [])).
  { intros cat Hcat.
    rewrite analysis_task_known by now apply Hin1, Hin2.
    apply process_category_invalid.
    pose proof (absent_directory_marker fs results_dir cat
                  (Habsent cat (proj2 (Hin2 cat) Hcat))) as Hmark.
    apply contains_spec in Hmark. rewrite Hmark. apply orb_true_r. }
  assert (Hoverview :
            process_category str_format client "overview"
              (all_data (raw_data_of fs results_dir done1)) model_name
              report_type base_prompts
            = (Ok (sentinel "overview"), [])).
  { apply process_category_invalid.
    assert (Hosint : In "osint" CATEGORIES) by (simpl; tauto).
    pose proof (marker_in_all_data fs results_dir done1 "osint"
                  (proj1 (Hin1 _) Hosint)
                  (absent_directory_marker fs results_dir "osint"
                     (Habsent _ Hosint))) as Hmark.
    apply contains_spec in Hmark. rewrite Hmark. apply orb_true_r. }
  assert (Hgather :
            fst (gather (analysis_of str_format client model_name report_type
                           base_prompts (raw_data_of fs results_dir done1))
                        done2 [])
            = Ok (map (fun c => (c, sentinel c)) done2)).
  { apply (gather_total _ sentinel done2);
      [| exact Hnd2 | intros c _ []].
    intros cat Hcat. now rewrite Htask. }
  destruct (analyze_after_ingestion fs str_format client results_dir
              model_name report_type base_prompts done1 done2 Hnd1)
    as (t1 & Ht1 & ->).
  split.
  - rewrite (fst_bind_ok _ _ (raw_data_of fs results_dir done1)) by reflexivity.
    rewrite (fst_bind_ok _ _ _ Hgather).
    rewrite Hoverview. simpl. f_equal.
    rewrite dict_set_fresh by now rewrite keys_map.
    now rewrite map_app.
  - rewrite snd_bind. simpl fst. cbv iota. simpl snd.
    rewrite service_calls_app, Ht1, snd_bind, gather_events, Hgather.
    rewrite service_calls_app, Hoverview.
    rewrite service_calls_flat_map_zero; [reflexivity |].
    intros c Hc. now rewrite Htask.
Qed.

Lemma analyze_absent_results_tree_witness :
  Permutation ["subdomains"; "osint"; "hosts"; "webs"] CATEGORIES /\
  Permutation ["osint"; "subdomains"; "webs"; "hosts"] CATEGORIES /\
  (forall cat, In cat CATEGORIES ->
     fs_isdir World.fs_sub (path_join "/nowhere" cat) = false) /\
  fst (analyze_reconftw_results World.fs_sub format_plain World.echo
         ["subdomains"; "osint"; "hosts"; "webs"]
         ["osint"; "subdomains"; "webs"; "hosts"]
         "/nowhere" World.MODEL "executive" World.no_catalog)
  = Ok (map (fun name =>
               (name, "[Error] No valid data available for " ++ name ++ "."))
            (["osint"; "subdomains"; "webs"; "hosts"] ++ ["overview"])%list) /\
  service_calls
    (snd (analyze_reconftw_results World.fs_sub format_plain World.echo
            ["subdomains"; "osint"; "hosts"; "webs"]
            ["osint"; "subdomains"; "webs"; "hosts"]
            "/nowhere" World.MODEL "executive" World.no_catalog)) = 0.
Proof.
  assert (HP1 : Permutation ["subdomains"; "osint"; "hosts"; "webs"] CATEGORIES)
    by apply perm_swap.
  assert (HP2 : Permutation ["osint"; "subdomains"; "webs"; "hosts"] CATEGORIES)
    by (do 2 apply perm_skip; apply perm_swap).
  assert (Habsent : forall cat, In cat CATEGORIES ->
            fs_isdir World.fs_sub (path_join "/nowhere" cat) = false).
  { intros cat Hcat. simpl in Hcat.
    destruct Hcat as [<- | [<- | [<- | [<- | []]]]]; reflexivity. }
  split; [exact HP1 |]. split; [exact HP2 |]. split; [exact Habsent |].
  apply (analyze_absent_results_tree World.fs_sub format_plain World.echo
           _ _ "/nowhere" World.MODEL "executive" World.no_catalog
           HP1 HP2 Habsent).
Defined.

(* ================================================================== *)
(** * More on the report writer *)

Section Rendering.


End Rendering.



Section FileNames.

Lemma digits2 (n : nat) : n < 100 -> n = 10 * ((n / 10) mod 10) + n mod 10.
Proof.
  intros H. pose proof (Nat.div_mod_eq n 10) as E.
  assert (n / 10 < 10) by (apply Nat.Div0.div_lt_upper_bound; lia).
  rewrite (Nat.mod_small (n / 10)) by assumption. exact E.
Qed.

Lemma digits4 (n : nat) :
  n < 10 * 1000 ->
  n = 1000 * ((n / 1000) mod 10) + 100 * ((n / 100) mod 10)
      + 10 * ((n / 10) mod 10) + n mod 10.
Proof.
  intros H.
  pose proof (Nat.div_mod_eq n 10) as E0.
  pose proof (Nat.div_mod_eq (n / 10) 10) as E1.
  pose proof (Nat.div_mod_eq (n / 100) 10) as E2.
  rewrite Nat.Div0.div_div in E1, E2.
  change (10 * 10) with 100 in E1. change (100 * 10) with 1000 in E2.
  assert (n / 1000 < 10) by (apply Nat.Div0.div_lt_upper_bound; lia).
  rewrite (Nat.mod_small (n / 1000)) by assumption. lia.
Qed.

Lemma String_inj (a b : ascii) (s t : string) :
  String a s = String b t -> a = b /\ s = t.
Proof. intros H. now injection H. Qed.

(** The character of a decimal digit tells the digit. *)
Lemma digit_char_inj (a b : nat) :
  ascii_of_nat (48 + a mod 10) = ascii_of_nat (48 + b mod 10) ->
  a mod 10 = b mod 10.
Proof.
  intros H. apply (f_equal nat_of_ascii) in H.
  pose proof (Nat.mod_upper_bound a 10 ltac:(discriminate)).
  pose proof (Nat.mod_upper_bound b 10 ltac:(discriminate)).
  rewrite !nat_ascii_embedding in H by lia. lia.
Qed.

Lemma strftime_chars (now : datetime) :
  strftime now
  = String (ascii_of_nat (48 + (year now / 1000) mod 10))
      (String (ascii_of_nat (48 + (year now / 100) mod 10))
      (String (ascii_of_nat (48 + (year now / 10) mod 10))
      (String (ascii_of_nat (48 + year now mod 10))
      (String (ascii_of_nat (48 + (month now / 10) mod 10))
      (String (ascii_of_nat (48 + month now mod 10))
      (String (ascii_of_nat (48 + (day now / 10) mod 10))
      (String (ascii_of_nat (48 + day now mod 10))
      (String "_"
      (String (ascii_of_nat (48 + (hour now / 10) mod 10))
      (String (ascii_of_nat (48 + hour now mod 10))
      (String (ascii_of_nat (48 + (minute now / 10) mod 10))
      (String (ascii_of_nat (48 + minute now mod 10))
      (String (ascii_of_nat (48 + (second now / 10) mod 10))
      (String (ascii_of_nat (48 + second now mod 10)) "")))))))))))))).
Proof. reflexivity. Qed.

(** On dates and times a [datetime] can hold, the timestamp tells the
    second. *)
Lemma strftime_injective (now1 now2 : datetime) :
  valid_datetime now1 -> valid_datetime now2 ->
  strftime now1 = strftime now2 -> now1 = now2.
Proof.
  destruct now1 as [ya ma da ha ia sa], now2 as [yb mb db hb ib sb].
  unfold valid_datetime. cbn [year month day hour minute second].
  intros (Hy1 & Hm1 & Hd1 & Hh1 & Hi1 & Hs1) (Hy2 & Hm2 & Hd2 & Hh2 & Hi2 & Hs2) E.
  rewrite !strftime_chars in E.
  unfold year, month, day, hour, minute, second in E.
  repeat (apply String_inj in E; destruct E as [? E]).
  repeat match goal with
         | H : ascii_of_nat _ = ascii_of_nat _ |- _ =>
             apply digit_char_inj in H
         end.
  pose proof (digits4 ya ltac:(lia)). pose proof (digits4 yb ltac:(lia)).
  pose proof (digits2 ma ltac:(lia)). pose proof (digits2 mb ltac:(lia)).
  pose proof (digits2 da ltac:(lia)). pose proof (digits2 db ltac:(lia)).
  pose proof (digits2 ha ltac:(lia)). pose proof (digits2 hb ltac:(lia)).
  pose proof (digits2 ia ltac:(lia)). pose proof (digits2 ib ltac:(lia)).
  pose proof (digits2 sa ltac:(lia)). pose proof (digits2 sb ltac:(lia)).
  f_equal; lia.
Qed.

Lemma app_inv_same_length (a b c d : string) :
  String.length a = String.length b -> a ++ c = b ++ d -> a = b.
Proof.
  revert b. induction a as [|x a IH]; intros [|y b] Hlen E;
    simpl in *; try discriminate; [reflexivity |].
  injection E as -> E. f_equal. apply IH; [lia | exact E].
Qed.

Lemma path_join_inj (dir name1 name2 : string) :
  starts_with "/" name1 = false -> starts_with "/" name2 = false ->
  path_join dir name1 = path_join dir name2 -> name1 = name2.
Proof.
  unfold path_join. intros -> -> E.
  destruct (is_empty dir || _).
  - exact (app_inv_head _ _ _ E).
  - apply app_inv_head in E. now injection E.
Qed.

End FileNames.

(** X12.  The file name tells the second of the run: two runs with the
    same output directory, report type and format write the same file
    only if their clocks read the same date and time, so a report is
    overwritten only by a run within the same second. *)
Theorem output_file_tells_the_second
  (now1 now2 : datetime) (output_dir output_format report_type : string) :
  valid_datetime now1 -> valid_datetime now2 ->
  output_file now1 output_dir output_format report_type
  = output_file now2 output_dir output_format report_type ->
  now1 = now2.
Proof.
  intros Hv1 Hv2 E. apply (strftime_injective now1 now2 Hv1 Hv2).
  unfold output_file in E.
  apply path_join_inj in E; [| reflexivity | reflexivity].
  apply (app_inv_head "reconftw_analysis_") in E.
  apply app_inv_head in E.
  apply (app_inv_head "_") in E.
  apply app_inv_same_length in E; [exact E |].
  now rewrite !strftime_chars.
Qed.

Lemma output_file_tells_the_second_witness :
  valid_datetime World.NOW /\
  output_file World.NOW "./reconftw_ai_output" "md" "brief"
  = output_file World.NOW "./reconftw_ai_output" "md" "brief" /\
  World.NOW = World.NOW.
Proof.
  assert (Hv : valid_datetime World.NOW)
    by (unfold valid_datetime, World.NOW; simpl; lia).
  split; [exact Hv |]. split; [reflexivity |].
  apply (output_file_tells_the_second World.NOW World.NOW
           "./reconftw_ai_output" "md" "brief" Hv Hv eq_refl).
Defined.

(* ================================================================== *)
(** * Start-up and [main] *)

Section Process.

Lemma fst_p_bind {A B} (m : P A) (k : A -> P B) :
  fst (p_bind m k)
  = match fst m with
    | Returned a => fst (k a)
    | Exited s => Exited s
    | Uncaught e => Uncaught e
    end.
Proof. destruct m as [[a | s | e] t]; simpl; [now destruct (k a) | | ]; reflexivity. Qed.

Lemma snd_p_bind {A B} (m : P A) (k : A -> P B) :
  snd (p_bind m k)
  = match fst m with
    | Returned a => (snd m ++ snd (k a))%list
    | _ => snd m
    end.
Proof. destruct m as [[a | s | e] t]; simpl; [now destruct (k a) | | ]; reflexivity. Qed.


Lemma effects_map_Effect (t : list event) : effects (map Effect t) = t.
Proof. induction t as [|ev t IH]; simpl; [reflexivity | now rewrite IH]. Qed.

Lemma written_files_app (a b : list event) :
  written_files (a ++ b) = (written_files a ++ written_files b)%list.
Proof.
  induction a as [|x a IH]; simpl; [reflexivity |].
  destruct x; simpl; now rewrite IH.
Qed.

Variable h : Host.
Variable args : Args.

Lemma main_unfold :
  main h args
  = (base_prompts <== load_prompts h (prompts_file args) ;;
     client <== get_gemini_client h ;;
     run_pipeline h args base_prompts client).
Proof. reflexivity. Qed.

Lemma save_results_closed_form (now : datetime) (results : dict string)
  (output_dir model_name output_format report_type : string) :
  save_results now results output_dir model_name output_format report_type
  = (Ok tt,
     [MakeDirs output_dir;
      WriteFile (output_file now output_dir output_format report_type)
        (report_body results model_name output_format report_type
           (strftime now))]).
Proof. reflexivity. Qed.

(** The pipeline part returns or dies of an exception; it never exits.
    It writes its one file last, and only when the run returned. *)
Lemma run_pipeline_closed_form (base_prompts : json) (client : Client) :
  run_pipeline h args base_prompts client
  = let run :=
      analyze_reconftw_results (host_fs h) (host_format h) client
        (host_done1 h) (host_done2 h) (results_dir args) (model args)
        (report_type args) base_prompts in
    let banner :=
      Print ("[*] Analyzing ReconFTW results with " ++ model args ++ "...") in
    match fst run with
    | Ok results =>
        (Returned tt,
         (banner :: map Effect (snd run)
          ++ [Effect (MakeDirs (output_dir args));
              Effect (WriteFile
                        (output_file (host_now h) (output_dir args)
                           (output_format args) (report_type args))
                        (report_body results (model args) (output_format args)
                           (report_type args) (strftime (host_now h))));
              Print ("[*] Results saved to '"
                     ++ output_file (host_now h) (output_dir args)
                          (output_format args) (report_type args)
                     ++ "'")])%list)
    | Raise e => (Uncaught e, banner :: map Effect (snd run))
    end.
Proof.
  unfold run_pipeline. cbv zeta.
  destruct (analyze_reconftw_results _ _ _ _ _ _ _ _ _) as [[results | e] t].
  - unfold print, act, of_M, p_bind. cbn [fst snd].
    rewrite save_results_closed_form. cbn [fst snd map app].
    rewrite ?List.app_nil_r. reflexivity.
  - unfold print, act, of_M, p_bind. cbn [fst snd app].
    rewrite ?List.app_nil_r. reflexivity.
Qed.

Lemma main_started (catalog : json) (api_key : string) :
  host_load_json h (prompts_file args) = Ok catalog ->
  host_getenv h "GOOGLE_API_KEY" = Some api_key ->
  is_empty api_key = false ->
  main h args
  = (fst (run_pipeline h args catalog (host_connect h api_key)),
     LoadJson (prompts_file args) :: GetEnv "GOOGLE_API_KEY"
     :: Connect api_key
     :: snd (run_pipeline h args catalog (host_connect h api_key))).
Proof.
  intros Hload Henv Hkey. rewrite main_unfold.
  unfold load_prompts, get_gemini_client. rewrite Hload, Henv, Hkey.
  unfold act, p_ret, p_bind. cbn [fst snd app].
  destruct (run_pipeline h args catalog (host_connect h api_key)) as [r t].
  reflexivity.
Qed.

Lemma main_without_key (catalog : json) :
  host_load_json h (prompts_file args) = Ok catalog ->
  (host_getenv h "GOOGLE_API_KEY" = None \/
   host_getenv h "GOOGLE_API_KEY" = Some "") ->
  main h args
  = (Exited 1,
     [LoadJson (prompts_file args); GetEnv "GOOGLE_API_KEY";
      Print "[ERROR] GOOGLE_API_KEY not found in environment variables."]).
Proof.
  intros Hload Henv. rewrite main_unfold.
  unfold load_prompts, get_gemini_client. rewrite Hload.
  destruct Henv as [-> | ->]; reflexivity.
Qed.

Lemma main_without_prompts (e : exn) :
  host_load_json h (prompts_file args) = Raise e ->
  main h args
  = if String.eqb (exn_class e) "FileNotFoundError" then
      (Exited 1,
       [LoadJson (prompts_file args);
        Print ("[ERROR] Prompts file '" ++ prompts_file args ++ "' not found.")])
    else if String.eqb (exn_class e) "JSONDecodeError" then
      (Exited 1,
       [LoadJson (prompts_file args);
        Print ("[ERROR] Invalid JSON in prompts file: " ++ exn_text e)])
    else (Uncaught e, [LoadJson (prompts_file args)]).
Proof.
  intros Hload. rewrite main_unfold. unfold load_prompts. rewrite Hload.
  destruct (String.eqb (exn_class e) "FileNotFoundError"); [reflexivity |].
  destruct (String.eqb (exn_class e) "JSONDecodeError"); reflexivity.
Qed.

End Process.



(** X14.  Conversely, every failed start-up ends [main] with status 1,
    and the last thing the process does is print a line that opens with
    "[ERROR]". *)
Theorem main_startup_failure_exits (h : Host) (args : Args) :
  startup_fails h args ->
  fst (main h args) = Exited 1 /\
  exists before line,
    snd (main h args) = (before ++ [Print line])%list /\
    starts_with "[ERROR]" line = true.
Proof.
  intros [(e & Hload & Hclass) | (catalog & Hload & Henv)].
  - rewrite (main_without_prompts h args e Hload).
    destruct Hclass as [Hc | Hc]; rewrite Hc; simpl.
    + split; [reflexivity |].
      exists [LoadJson (prompts_file args)]. eexists.
      split; reflexivity.
    + split; [reflexivity |].
      exists [LoadJson (prompts_file args)]. eexists.
      split; reflexivity.
  - rewrite (main_without_key h args catalog Hload Henv).
    split; [reflexivity |].
    exists [LoadJson (prompts_file args); GetEnv "GOOGLE_API_KEY"]. eexists.
    split; reflexivity.
Qed.

Lemma main_startup_failure_exits_witness :
  startup_fails (Hosts.ready World.fs_sub World.no_catalog World.echo)
    (mkArgs DEFAULT_RECONFTW_RESULTS_DIR DEFAULT_OUTPUT_DIR DEFAULT_MODEL_NAME
            "md" "brief" "missing.json") /\
  fst (main (Hosts.ready World.fs_sub World.no_catalog World.echo)
         (mkArgs DEFAULT_RECONFTW_RESULTS_DIR DEFAULT_OUTPUT_DIR
                 DEFAULT_MODEL_NAME "md" "brief" "missing.json"))
  = Exited 1 /\
  exists before line,
    snd (main (Hosts.ready World.fs_sub World.no_catalog World.echo)
           (mkArgs DEFAULT_RECONFTW_RESULTS_DIR DEFAULT_OUTPUT_DIR
                   DEFAULT_MODEL_NAME "md" "brief" "missing.json"))
    = (before ++ [Print line])%list /\
    starts_with "[ERROR]" line = true.
Proof.
  assert (Hfail :
    startup_fails (Hosts.ready World.fs_sub World.no_catalog World.echo)
      (mkArgs DEFAULT_RECONFTW_RESULTS_DIR DEFAULT_OUTPUT_DIR
              DEFAULT_MODEL_NAME "md" "brief" "missing.json")).
  { left. eexists. split; [reflexivity | left; reflexivity]. }
  split; [exact Hfail |].
  apply (main_startup_failure_exits
           (Hosts.ready World.fs_sub World.no_catalog World.echo) _ Hfail).
Defined.

Section NothingWritten.

Lemma written_files_flat_map (f : string -> list event) (l : list string) :
  (forall c, written_files (f c) = []) -> written_files (flat_map f l) = [].
Proof.
  intros H. induction l as [|c l IH]; simpl; [reflexivity |].
  now rewrite written_files_app, H, IH.
Qed.

Variable fs : FileSystem.
Variable str_format : string -> string -> result string.
Variable client : Client.

Lemma read_files_writes_nothing (category results_dir : string) :
  written_files (snd (read_files fs category results_dir)) = [].
Proof.
  rewrite read_files_closed_form. simpl.
  destruct (fs_isdir fs (path_join results_dir category)); [| reflexivity].
  simpl. apply written_files_flat_map. intros p. unfold block_events.
  destruct (fs_isfile fs p); reflexivity.
Qed.

Lemma process_category_writes_nothing
  (category data model_name report_type : string) (base_prompts : json) :
  written_files
    (snd (process_category str_format client category data model_name
            report_type base_prompts)) = [].
Proof.
  destruct (is_empty data || contains "[Error]" data) eqn:Hvalid.
  - now rewrite process_category_invalid.
  - destruct (fst (prompt str_format base_prompts report_type category data))
      as [contents | e] eqn:Hprompt.
    + now rewrite (process_category_valid _ _ _ _ _ _ contents _ Hvalid Hprompt).
    + now rewrite (process_category_propagates _ _ _ _ _ _ _ e Hvalid Hprompt).
Qed.

(** The run itself writes no file. *)
Lemma analyze_writes_nothing (done1 done2 : list string)
  (results_dir model_name report_type : string) (base_prompts : json) :
  written_files
    (snd (analyze_reconftw_results fs str_format client done1 done2
            results_dir model_name report_type base_prompts)) = [].
Proof.
  unfold analyze_reconftw_results, raw_data_per_category.
  rewrite snd_bind, gather_events.
  assert (Hreads :
    written_files
      (flat_map (fun c => snd (read_files fs c results_dir)) done1) = [])
    by (apply written_files_flat_map; intros c;
        apply read_files_writes_nothing).
  destruct (fst (gather _ done1 [])) as [raw | e]; [| exact Hreads].
  rewrite written_files_app, Hreads, snd_bind, gather_events. simpl.
  assert (Hcalls :
    written_files
      (flat_map
         (fun c =>
            snd (data <- subscript raw c ;;
                 process_category str_format client c data model_name
                   report_type base_prompts)) done2) = []).
  { apply written_files_flat_map. intros c. unfold subscript.
    destruct (dict_get raw c) as [v |]; [| reflexivity].
    unfold bind, ret.
    pose proof (process_category_writes_nothing c v model_name report_type
                  base_prompts) as H.
    destruct (process_category _ _ _ _ _ _ _) as [r t]. exact H. }
  destruct (fst (gather _ done2 [])) as [results | e]; [| exact Hcalls].
  rewrite written_files_app, Hcalls, snd_bind. simpl.
  pose proof (process_category_writes_nothing "overview" (all_data raw)
                model_name report_type base_prompts) as Hov.
  destruct (fst (process_category _ _ "overview" _ _ _ _)); [| exact Hov].
  now rewrite written_files_app, Hov.
Qed.

End NothingWritten.



(** X16.  When the start-up completes and the run raises, the exception
    ends [main], after the service calls already made, and no file is
    written: there is no partial report. *)
Theorem main_writes_nothing_when_the_run_raises
  (h : Host) (args : Args) (catalog : json) (api_key : string) (e : exn) :
  host_load_json h (prompts_file args) = Ok catalog ->
  host_getenv h "GOOGLE_API_KEY" = Some api_key ->
  api_key <> "" ->
  fst (analyze_reconftw_results (host_fs h) (host_format h)
         (host_connect h api_key) (host_done1 h) (host_done2 h)
         (results_dir args) (model args) (report_type args) catalog)
  = Raise e ->
  fst (main h args) = Uncaught e /\
  written_files (effects (snd (main h args))) = [] /\
  effects (snd (main h args))
  = snd (analyze_reconftw_results (host_fs h) (host_format h)
           (host_connect h api_key) (host_done1 h) (host_done2 h)
           (results_dir args) (model args) (report_type args) catalog).
Proof.
  intros Hload Henv Hkey Hrun.
  assert (Hkey' : is_empty api_key = false)
    by (destruct api_key; [congruence | reflexivity]).
  rewrite (main_started h args catalog api_key Hload Henv Hkey').
  rewrite run_pipeline_closed_form. cbv zeta.
  pose proof (analyze_writes_nothing (host_fs h) (host_format h)
                (host_connect h api_key) (host_done1 h) (host_done2 h)
                (results_dir args) (model args) (report_type args) catalog)
    as Hnone.
  rewrite Hrun. cbn [fst snd effects].
  rewrite effects_map_Effect. now repeat split.
Qed.

Lemma main_writes_nothing_when_the_run_raises_witness :
  host_load_json (Hosts.ready World.fs_ab World.catalog_target World.echo)
    (prompts_file DEFAULT_ARGS) = Ok World.catalog_target /\
  host_getenv (Hosts.ready World.fs_ab World.catalog_target World.echo)
    "GOOGLE_API_KEY" = Some "AIza-example" /\
  "AIza-example" <> "" /\
  fst (analyze_reconftw_results World.fs_ab format_plain World.echo
         ["subdomains"; "osint"; "hosts"; "webs"]
         ["osint"; "subdomains"; "webs"; "hosts"]
         (results_dir DEFAULT_ARGS) (model DEFAULT_ARGS)
         (report_type DEFAULT_ARGS) World.catalog_target)
  = Raise (mkExn "KeyError" "'target'") /\
  fst (main (Hosts.ready World.fs_ab World.catalog_target World.echo)
         DEFAULT_ARGS) = Uncaught (mkExn "KeyError" "'target'") /\
  written_files
    (effects (snd (main (Hosts.ready World.fs_ab World.catalog_target
                           World.echo) DEFAULT_ARGS))) = [].
Proof.
  assert (Hrun :
    fst (analyze_reconftw_results World.fs_ab format_plain World.echo
           ["subdomains"; "osint"; "hosts"; "webs"]
           ["osint"; "subdomains"; "webs"; "hosts"]
           (results_dir DEFAULT_ARGS) (model DEFAULT_ARGS)
           (report_type DEFAULT_ARGS) World.catalog_target)
    = Raise (mkExn "KeyError" "'target'")) by reflexivity.
  assert (Hkey : "AIza-example" <> "") by discriminate.
  split; [reflexivity |]. split; [reflexivity |].
  split; [exact Hkey |]. split; [exact Hrun |].
  destruct (main_writes_nothing_when_the_run_raises
              (Hosts.ready World.fs_ab World.catalog_target World.echo)
              DEFAULT_ARGS World.catalog_target "AIza-example"
              (mkExn "KeyError" "'target'") eq_refl eq_refl Hkey Hrun)
    as (Hret & Hfiles & _).
  split; [exact Hret | exact Hfiles].
Defined.

(** X17.  Only a missing file and a JSON syntax error are turned into a
    clean exit.  Any other failure to load the prompts file (a permission
    error, a directory in its place, bytes that are not UTF-8) leaves
    [load_prompts] and ends [main] as an uncaught exception, with no
    "[ERROR]" line printed and nothing else done. *)
Theorem main_other_load_errors_are_uncaught
  (h : Host) (args : Args) (e : exn) :
  host_load_json h (prompts_file args) = Raise e ->
  exn_class e <> "FileNotFoundError" ->
  exn_class e <> "JSONDecodeError" ->
  main h args = (Uncaught e, [LoadJson (prompts_file args)]).
Proof.
  intros Hload Hfnf Hjson.
  rewrite (main_without_prompts h args e Hload).
  apply String.eqb_neq in Hfnf, Hjson. now rewrite Hfnf, Hjson.
Qed.

Lemma main_other_load_errors_are_uncaught_witness :
  host_load_json
    (mkHost (fun path =>
               Raise (mkExn "PermissionError"
                        ("[Errno 13] Permission denied: '" ++ path ++ "'")))
            (fun _ => Some "AIza-example") (fun _ => World.echo) World.fs_sub
            format_plain World.NOW CATEGORIES CATEGORIES)
    (prompts_file DEFAULT_ARGS)
  = Raise (mkExn "PermissionError"
             "[Errno 13] Permission denied: 'prompts.json'") /\
  main
    (mkHost (fun path =>
               Raise (mkExn "PermissionError"
                        ("[Errno 13] Permission denied: '" ++ path ++ "'")))
            (fun _ => Some "AIza-example") (fun _ => World.echo) World.fs_sub
            format_plain World.NOW CATEGORIES CATEGORIES)
    DEFAULT_ARGS
  = (Uncaught (mkExn "PermissionError"
                 "[Errno 13] Permission denied: 'prompts.json'"),
     [LoadJson "prompts.json"]).
Proof.
  split; [reflexivity |].
  apply (main_other_load_errors_are_uncaught
           (mkHost (fun path =>
                      Raise (mkExn "PermissionError"
                               ("[Errno 13] Permission denied: '" ++ path
                                ++ "'")))
                   (fun _ => Some "AIza-example") (fun _ => World.echo)
                   World.fs_sub format_plain World.NOW CATEGORIES CATEGORIES)
           DEFAULT_ARGS
           (mkExn "PermissionError"
              "[Errno 13] Permission denied: 'prompts.json'"));
    [reflexivity | discriminate | discriminate].
Defined.
